(** * Reaktor birdnest: no-fly-zone detection and the violator registry

    A shallow embedding of [scraping.py]: [check_forbidden_coords],
    [get_pilot_data], [get_drone_data], [convert_info_into_html] and
    [update_web_page], followed by the properties of the polling cycle.

    Modelling choices, all read off the source:
    - Python floats are IEEE binary64 numbers: [PrimFloat.float].
      [v ** 2] follows CPython's float power: NaN, the infinities, zero and
      plus or minus one are settled by the interpreter, every other value
      goes to the platform's [pow], which is an oracle of the environment
      ([libm_pow2]) taken to report no error but overflow, and an infinite
      result raises [OverflowError].  [math.sqrt] raises [ValueError] below
      zero.
    - A [datetime] is the number of microseconds since the epoch.  The
      registry stores [str(datetime)], which determines the datetime, so the
      stored string is modelled by the datetime itself; what is lost in the
      round trip ([strptime] refusing a string without a fractional part) is
      kept in [strptime].
    - A Python [dict] with string keys is an association list in insertion
      order with unique keys.
    - The answer of the drones endpoint is its status code, which the
      program never reads, and the [<drone>] elements of its body, each
      with a serial number and two coordinates that [float] accepts (the
      module [Elements] goes below that).  A pilot object has the fields the
      program reads and prints.  The registry file is missing, or a file on
      which [json.load] raises, or a registry of such pilot objects;
      [json.dump] followed by [json.load] gives the registry back.
    - Opening and writing [templates/information.html] and writing
      [pilot_information.json] are taken to succeed.
    - The network and the wall clock are oracles ([Env]); the two files the
      program writes and the number of clock readings so far are the state
      ([World]).  An exception leaves the state as it was when raised.
    - Below the drones, [Elements] has the loop of [check_forbidden_coords]
      on the strings the parser hands over, with the two splits of each
      element written out and [float] as a parameter; below the page,
      [html_lines] has the list of lines that is written to
      [information.html], with the [.2f] formatting as a parameter. *)

From Stdlib Require Import ZArith List Ascii String Bool Lia Floats.
Import ListNotations.

Local Open Scope string_scope.
Local Open Scope Z_scope.

(** ** Python dictionaries keyed by strings *)

Section Dict.
Context {V : Type}.

Definition dict : Type := list (string * V).

(** [d.get(k)] *)
Fixpoint dict_get (k : string) (d : dict) : option V :=
  match d with
  | [] => None
  | (k', v) :: rest => if String.eqb k k' then Some v else dict_get k rest
  end.

(** [k in d] *)
Definition dict_mem (k : string) (d : dict) : bool :=
  match dict_get k d with Some _ => true | None => false end.

(** [d[k] = v]: an existing key keeps its position, a new key goes last. *)
Fixpoint dict_set (k : string) (v : V) (d : dict) : dict :=
  match d with
  | [] => [(k, v)]
  | (k', v') :: rest =>
      if String.eqb k k' then (k, v) :: rest else (k', v') :: dict_set k v rest
  end.

(** [del d[k]] for a key of [d] (keys are unique). *)
Definition dict_del (k : string) (d : dict) : dict :=
  filter (fun kv => negb (String.eqb k (fst kv))) d.

Definition dict_keys (d : dict) : list string := map fst d.

End Dict.

Arguments dict V : clear implicits.

(** ** Floats *)

Definition float_gt (a b : float) : bool := PrimFloat.ltb b a.

(** Python's [min(a, b)]: [b] when [b < a], otherwise [a]. *)
Definition float_min (a b : float) : float :=
  if PrimFloat.ltb b a then b else a.

(** [a] is not NaN. *)
Definition is_number (a : float) : bool := PrimFloat.eqb a a.

(** ** Datetimes *)

Definition datetime : Type := Z.

Definition microseconds_per_second : Z := 1000000.
Definition seconds_per_day : Z := 86400.

(** [timedelta.seconds] of the difference [d] (in microseconds): a
    timedelta is normalised to days, seconds in [0, 86400) and microseconds
    in [0, 1000000), and [.seconds] is the middle component alone. *)
Definition timedelta_seconds (d : Z) : Z :=
  (d / microseconds_per_second) mod seconds_per_day.

(** [timedelta.total_seconds() > n] for a whole number [n] of seconds. *)
Definition elapsed_more_than (d n : Z) : bool :=
  n * microseconds_per_second <? d.

(** ** Exceptions and the state-and-error monad *)

Inductive exn : Type :=
| ConnectionError
| JSONDecodeError
| KeyError
| ValueError
| FileNotFoundError
| OverflowError
| UnicodeDecodeError
| RecursionError
| IndexError.

Inductive result (A : Type) : Type :=
| Ok (a : A)
| Raise (e : exn).

Arguments Ok {A} a.
Arguments Raise {A} e.

(** [strptime(s, '%Y-%m-%d %H:%M:%S.%f')] on [s = str(t)]: [str] leaves the
    fractional part out when the microsecond field is zero, and the format
    then does not match. *)
Definition strptime (t : datetime) : result datetime :=
  if t mod microseconds_per_second =? 0 then Raise ValueError else Ok t.

(** ** [v ** 2] and [math.sqrt] *)

Definition is_nan (a : float) : bool :=
  match Prim2SF a with S754_nan => true | _ => false end.

Definition is_inf (a : float) : bool :=
  match Prim2SF a with S754_infinity _ => true | _ => false end.

(** [v ** 2] for a float [v], as CPython's [float_pow] goes about it: NaN
    gives [v] back, an infinity gives [inf], a zero gives [0.0]; otherwise
    the sign is dropped (the exponent is even), [1.0] gives [1.0], and what
    is left goes to the platform: [pow(|v|, 2.0)] is [libm_pow2 |v|], and an
    infinite result is the [OverflowError] of a range error (an underflow
    to zero is let through). *)
Definition float_pow2 (libm_pow2 : float -> float) (v : float) : result float :=
  if is_nan v then Ok v
  else if is_inf v then Ok (PrimFloat.abs v)
  else if PrimFloat.eqb v 0%float then Ok 0%float
  else
    let iv := PrimFloat.abs v in
    if PrimFloat.eqb iv 1%float then Ok 1%float
    else
      let ix := libm_pow2 iv in
      if is_inf ix then Raise OverflowError else Ok ix.

(** [math.sqrt(v)]: a "math domain error" below zero. *)
Definition math_sqrt (v : float) : result float :=
  if PrimFloat.ltb v 0%float then Raise ValueError else Ok (PrimFloat.sqrt v).

(** ** Data *)

(** One [<drone>] element of the snapshot, coordinates already read by
    [float(...)]. *)
Record Drone : Type := {
  serialNumber : string;
  positionX : float;
  positionY : float
}.

(** The JSON object the pilots endpoint answers with (the fields the program
    reads). *)
Record Pilot : Type := {
  pilotId : string;
  firstName : string;
  lastName : string;
  phoneNumber : string;
  email : string
}.

(** A pilot object after [get_pilot_data] has added ["timeOfViolation"] and
    ["closestDistance"]: the value type of the registry. *)
Record PilotInfo : Type := {
  pilot : Pilot;
  timeOfViolation : datetime;
  closestDistance : float
}.

Definition set_timeOfViolation (r : PilotInfo) (t : datetime) : PilotInfo :=
  {| pilot := pilot r; timeOfViolation := t; closestDistance := closestDistance r |}.

Definition set_closestDistance (r : PilotInfo) (d : float) : PilotInfo :=
  {| pilot := pilot r; timeOfViolation := timeOfViolation r; closestDistance := d |}.

(** [pilot_information.json]: not there; there, with contents on which
    [json.load] raises [e] ([JSONDecodeError] for what is not JSON, an empty
    file included, [UnicodeDecodeError] for bytes that are not UTF-8, [RecursionError]
    for a nesting that is too deep); or a registry. *)
Inductive json_file : Type :=
| Missing
| Unloadable (e : exn)
| Registry (d : dict PilotInfo).

(** What [convert_info_into_html] inserts into [base_html]. *)
Inductive html_item : Type :=
| PilotBlock (first last phone mail : string) (distance : float)
| NoDronesNotice.

(** What [requests.get] returns from the drones endpoint: the status code
    and the [<drone>] elements that [find_all] finds in the body. *)
Record Response : Type := {
  status_code : Z;
  body_drones : list Drone
}.

(** The oracles of one cycle: the two endpoints ([Raise] when
    [requests.get] or the decoding of the reply raises), the wall clock, and
    the platform's [pow(a, 2.0)]. *)
Record Env : Type := {
  drones_endpoint : result Response;
  pilots_endpoint : string -> result Pilot;
  wall_clock : nat -> datetime;
  libm_pow2 : float -> float
}.

Record World : Type := {
  ticks : nat;
  pilot_information_json : json_file;
  information_html : option (list html_item)
}.

Definition M (A : Type) : Type := World -> result A * World.

Definition ret {A} (a : A) : M A := fun w => (Ok a, w).

Definition raise {A} (e : exn) : M A := fun w => (Raise e, w).

Definition bind {A B} (m : M A) (f : A -> M B) : M B :=
  fun w =>
    match m w with
    | (Ok a, w') => f a w'
    | (Raise e, w') => (Raise e, w')
    end.

Definition lift {A} (r : result A) : M A := fun w => (r, w).

Declare Scope py_scope.
Delimit Scope py_scope with py.
Notation "x <- m ;; k" := (bind m (fun x => k))
  (at level 100, m at next level, right associativity) : py_scope.
Notation "m ;;; k" := (bind m (fun _ => k))
  (at level 100, right associativity) : py_scope.
Local Open Scope py_scope.

(** [datetime.datetime.now()] *)
Definition now (env : Env) : M datetime :=
  fun w =>
    (Ok (wall_clock env (ticks w)),
     {| ticks := S (ticks w);
        pilot_information_json := pilot_information_json w;
        information_html := information_html w |}).

(** A [for] loop threading the loop-carried value [acc]. *)
Fixpoint for_each {A B} (body : B -> A -> M B) (l : list A) (acc : B) : M B :=
  match l with
  | [] => ret acc
  | a :: rest => acc' <- body acc a ;; for_each body rest acc'
  end.

(** ** [check_forbidden_coords] *)

Definition nfz_center : float := 250000%float.
Definition nfz_radius : float := 100000%float.

(** Line 76: the two squares, left to right, their sum, the root. *)
Definition nest_distance (env : Env) (x_coord y_coord : float) : result float :=
  match float_pow2 (libm_pow2 env) (nfz_center - x_coord)%float with
  | Raise e => Raise e
  | Ok square_x =>
      match float_pow2 (libm_pow2 env) (nfz_center - y_coord)%float with
      | Raise e => Raise e
      | Ok square_y => math_sqrt (square_x + square_y)%float
      end
  end.

(** Line 68. *)
Definition x_inside (x_coord : float) : bool :=
  PrimFloat.ltb 150000%float x_coord && PrimFloat.ltb x_coord 350000%float.

Definition check_drone (env : Env)
  (illegal_drone_ids : dict (datetime * float)) (drone : Drone)
  : M (dict (datetime * float)) :=
  let x_coord := positionX drone in
  let y_coord := positionY drone in
  if x_inside x_coord then
    distance <- lift (nest_distance env x_coord y_coord) ;;
    if PrimFloat.leb distance nfz_radius then
      time <- now env ;;
      ret (dict_set (serialNumber drone) (time, distance) illegal_drone_ids)
    else ret illegal_drone_ids
  else ret illegal_drone_ids.

Definition check_forbidden_coords (env : Env) (data : list Drone)
  : M (dict (datetime * float)) :=
  for_each (check_drone env) data [].

(** ** [get_pilot_data] *)

(** Lines 114-134: one pilot lookup per drone of [drones_in_nfz]. *)
Definition resolve_drone (env : Env)
  (pilot_data : dict PilotInfo) (entry : string * (datetime * float))
  : M (dict PilotInfo) :=
  let '(drone, (time, distance)) := entry in
  json_object <- lift (pilots_endpoint env drone) ;;
  ret (dict_set (pilotId json_object)
         {| pilot := json_object;
            timeOfViolation := time;
            closestDistance := distance |}
         pilot_data).

Definition resolve_pilots (env : Env) (drones_in_nfz : dict (datetime * float))
  : M (dict PilotInfo) :=
  for_each (resolve_drone env) drones_in_nfz [].

(** Lines 153-167: the body of the loop over [pilot_data]. *)
Definition merge_entry (saved_pilot_info : dict PilotInfo)
  (entry : string * PilotInfo) : dict PilotInfo :=
  let '(pilot_id, new) := entry in
  match dict_get pilot_id saved_pilot_info with
  | Some old =>
      let old := set_timeOfViolation old (timeOfViolation new) in
      let old :=
        if float_gt (closestDistance old) (closestDistance new)
        then set_closestDistance old (closestDistance new)
        else old in
      dict_set pilot_id old saved_pilot_info
  | None => dict_set pilot_id new saved_pilot_info
  end.

(** Lines 152-167. *)
Definition merge_pilot_data (pilot_data saved_pilot_info : dict PilotInfo)
  : dict PilotInfo :=
  fold_left merge_entry pilot_data saved_pilot_info.

(** Line 140: [open("pilot_information.json")]. *)
Definition open_pilot_information : M json_file :=
  fun w =>
    match pilot_information_json w with
    | Missing => (Raise FileNotFoundError, w)
    | f => (Ok f, w)
    end.

(** Line 146: [json.load(json_file)]. *)
Definition json_load (f : json_file) : result (dict PilotInfo) :=
  match f with
  | Registry d => Ok d
  | Unloadable e => Raise e
  | Missing => Raise FileNotFoundError
  end.

(** Lines 138-171: [saved_pilot_info] starts empty; the load and the merge
    loop are both inside the [try]; the handler is for [JSONDecodeError]
    alone, and only prints. *)
Definition load_and_merge (pilot_data : dict PilotInfo) (f : json_file)
  : result (dict PilotInfo) :=
  match json_load f with
  | Ok saved_pilot_info => Ok (merge_pilot_data pilot_data saved_pilot_info)
  | Raise JSONDecodeError => Ok []
  | Raise e => Raise e
  end.

(** Lines 179-198: the body of the loop that fills [to_be_deleted]. *)
Definition check_expired (env : Env)
  (to_be_deleted : list string) (entry : string * PilotInfo)
  : M (list string) :=
  let '(pilot_id, info) := entry in
  time_now <- now env ;;
  time_of_violation <- lift (strptime (timeOfViolation info)) ;;
  let difference := time_now - time_of_violation in
  if timedelta_seconds difference >? 600
  then ret (to_be_deleted ++ [pilot_id])%list
  else ret to_be_deleted.

(** Lines 177-204. *)
Definition expire (env : Env) (saved_pilot_info : dict PilotInfo)
  : M (dict PilotInfo) :=
  to_be_deleted <- for_each (check_expired env) saved_pilot_info [] ;;
  ret (fold_left (fun d key => dict_del key d) to_be_deleted saved_pilot_info).

(** Lines 207-209. *)
Definition write_pilot_information (d : dict PilotInfo) : M unit :=
  fun w =>
    (Ok tt,
     {| ticks := ticks w;
        pilot_information_json := Registry d;
        information_html := information_html w |}).

Definition get_pilot_data (env : Env) (drones_in_nfz : dict (datetime * float))
  : M unit :=
  pilot_data <- resolve_pilots env drones_in_nfz ;;
  json_file <- open_pilot_information ;;
  saved_pilot_info <- lift (load_and_merge pilot_data json_file) ;;
  saved_pilot_info <- expire env saved_pilot_info ;;
  write_pilot_information saved_pilot_info.

(** ** [get_drone_data], [convert_info_into_html], [update_web_page] *)

(** The status code of the answer is not looked at. *)
Definition get_drone_data (env : Env) : M (list Drone) :=
  response <- lift (drones_endpoint env) ;;
  ret (body_drones response).

Definition pilot_block (info : PilotInfo) : html_item :=
  PilotBlock (firstName (pilot info)) (lastName (pilot info))
    (phoneNumber (pilot info)) (email (pilot info))
    (closestDistance info / 1000)%float.

(** Lines 233-302, for a registry of complete pilot objects and a page file
    that opens. *)
Definition convert_info_into_html : M unit :=
  json_file <- open_pilot_information ;;
  json_object <- lift (json_load json_file) ;;
  let blocks := map (fun kv => pilot_block (snd kv)) json_object in
  let base_html := match blocks with [] => [NoDronesNotice] | _ => blocks end in
  fun w =>
    (Ok tt,
     {| ticks := ticks w;
        pilot_information_json := pilot_information_json w;
        information_html := Some base_html |}).

Definition update_web_page (env : Env) : M unit :=
  drone_data <- get_drone_data env ;;
  drones_in_nfz <- check_forbidden_coords env drone_data ;;
  get_pilot_data env drones_in_nfz ;;;
  convert_info_into_html.

(** ** Notions used in the statements *)

(** The cycle up to the call of [convert_info_into_html]: lines 315-323 of
    [update_web_page]. *)
Definition update_registry (env : Env) : M unit :=
  drone_data <- get_drone_data env ;;
  drones_in_nfz <- check_forbidden_coords env drone_data ;;
  get_pilot_data env drones_in_nfz.

Definition with_pilot_information (w : World) (f : json_file) : World :=
  {| ticks := ticks w;
     pilot_information_json := f;
     information_html := information_html w |}.

(** Both files are as they were. *)
Definition same_files (w w' : World) : Prop :=
  pilot_information_json w' = pilot_information_json w /\
  information_html w' = information_html w.

Definition map_result {A B} (f : A -> B) (r : result A) : result B :=
  match r with
  | Ok a => Ok (f a)
  | Raise e => Raise e
  end.

(** Lines 68-78 for one drone: the exception of line 76, or the distance
    under which the drone is recorded, or [None] when it is passed over. *)
Definition nfz_distance (env : Env) (d : Drone) : result (option float) :=
  if x_inside (positionX d) then
    match nest_distance env (positionX d) (positionY d) with
    | Raise e => Raise e
    | Ok distance =>
        Ok (if PrimFloat.leb distance nfz_radius then Some distance else None)
    end
  else Ok None.

(** The drone is recorded. *)
Definition recorded (env : Env) (d : Drone) : bool :=
  match nfz_distance env d with
  | Ok (Some _) => true
  | _ => false
  end.

(** The recorded drones and their distances, or the exception of the call:
    what the call comes to, without the clock and the state. *)
Fixpoint violations_from (env : Env) (data : list Drone) (acc : dict float)
  : result (dict float) :=
  match data with
  | [] => Ok acc
  | d :: rest =>
      match nfz_distance env d with
      | Raise e => Raise e
      | Ok None => violations_from env rest acc
      | Ok (Some distance) =>
          violations_from env rest (dict_set (serialNumber d) distance acc)
      end
  end.

Definition violations (env : Env) (data : list Drone) : result (dict float) :=
  violations_from env data [].

Definition forget_time (events : dict (datetime * float)) : dict float :=
  map (fun kv => (fst kv, snd (snd kv))) events.


(** What lines 153-167 leave under [pilot_id], given what was there. *)
Definition merged (old : option PilotInfo) (new : PilotInfo) : PilotInfo :=
  match old with
  | None => new
  | Some old =>
      {| pilot := pilot old;
         timeOfViolation := timeOfViolation new;
         closestDistance := float_min (closestDistance old) (closestDistance new) |}
  end.

(** Line 197 for the record [r], read at clock time [now_]. *)
Definition expired_at (now_ : datetime) (r : PilotInfo) : bool :=
  timedelta_seconds (now_ - timeOfViolation r) >? 600.

Definition distance_ok (d : float) : bool :=
  PrimFloat.leb 0%float d && PrimFloat.leb d nfz_radius.

Definition registry_ok (d : dict PilotInfo) : Prop :=
  Forall (fun kv => distance_ok (closestDistance (snd kv)) = true) d.

Definition file_ok (f : json_file) : Prop :=
  match f with
  | Registry d => registry_ok d
  | _ => True
  end.

Definition resolvable (env : Env) (s : string) : bool :=
  match pilots_endpoint env s with Ok _ => true | Raise _ => false end.

(** ** The behaviour the specification words, for comparison *)

(** The specification's [expire(registry, now, ttl = 600s)]: an entry goes
    when its whole elapsed time exceeds 600 seconds. *)
Definition expire_spec (registry : dict PilotInfo) (now_ : datetime)
  : dict PilotInfo :=
  filter (fun kv => negb (elapsed_more_than (now_ - timeOfViolation (snd kv)) 600))
    registry.

(** The specification's [d = sqrt((x-250000)^2 + (y-250000)^2)], each
    operation rounded to the nearest float. *)
Definition distance_to_nest (x_coord y_coord : float) : float :=
  PrimFloat.sqrt ((nfz_center - x_coord) * (nfz_center - x_coord)
                  + (nfz_center - y_coord) * (nfz_center - y_coord))%float.

(** The specification's violation test: [d <= R] and nothing else. *)
Definition violates_spec (d : Drone) : bool :=
  PrimFloat.leb (distance_to_nest (positionX d) (positionY d)) nfz_radius.

(** The specification's reading of an unreadable store: the cycle completes
    and leaves the registry it leaves when started from the empty one. *)
Definition store_read_as_empty (env : Env) (w : World) : Prop :=
  fst (update_web_page env w) = Ok tt /\
  pilot_information_json (snd (update_web_page env w)) =
  pilot_information_json
    (snd (update_web_page env (with_pilot_information w (Registry [])))).

(** The specification's per-drone policy: the cycle completes and leaves the
    registry it leaves when the drones whose lookup fails are taken out of
    the snapshot. *)
Definition without_unresolvable (env : Env) : Env :=
  {| drones_endpoint :=
       match drones_endpoint env with
       | Ok response =>
           Ok {| status_code := status_code response;
                 body_drones :=
                   filter (fun d => resolvable env (serialNumber d))
                     (body_drones response) |}
       | Raise e => Raise e
       end;
     pilots_endpoint := pilots_endpoint env;
     wall_clock := wall_clock env;
     libm_pow2 := libm_pow2 env |}.

Definition failed_lookup_only_drops_event (env : Env) (w : World) : Prop :=
  fst (update_web_page env w) = Ok tt /\
  pilot_information_json (snd (update_web_page env w)) =
  pilot_information_json (snd (update_web_page (without_unresolvable env) w)).


(** The specification's failed fetch: [requests.get] raises, or the answer
    does not have the status 200. *)
Definition fetch_failed (env : Env) : Prop :=
  match drones_endpoint env with
  | Raise _ => True
  | Ok response => status_code response <> 200
  end.

(** The specification's outcome of a failed fetch: the cycle aborts and the
    registry file is as before. *)
Definition aborts_leaving_registry (env : Env) (w : World) : Prop :=
  (exists e, fst (update_web_page env w) = Raise e) /\
  pilot_information_json (snd (update_web_page env w))
  = pilot_information_json w.

(** The specification's outcome for a store whose contents fail to parse:
    the events of the cycle are dropped and the store is overwritten with
    the empty registry. *)
Definition overwritten_with_empty (env : Env)
  (drones_in_nfz : dict (datetime * float)) (w : World) : Prop :=
  get_pilot_data env drones_in_nfz w
  = (Ok tt, with_pilot_information w (Registry [])).

(** ** Concrete inputs *)

Definition second : Z := microseconds_per_second.

(** 2023-01-13 08:53:20.000001 *)
Definition t0 : datetime := 1673600000000001.

Definition pilot_P1 : Pilot :=
  {| pilotId := "P1"; firstName := "Ada"; lastName := "Aalto";
     phoneNumber := "+358401"; email := "ada@example.com" |}.

Definition pilot_P2 : Pilot :=
  {| pilotId := "P2"; firstName := "Bo"; lastName := "Berg";
     phoneNumber := "+358402"; email := "bo@example.com" |}.

Definition drone_at (s : string) (x y : float) : Drone :=
  {| serialNumber := s; positionX := x; positionY := y |}.

(** The state after [n] clock readings, with [f] on disk and no page yet. *)
Definition world_at (n : nat) (f : json_file) : World :=
  {| ticks := n; pilot_information_json := f; information_html := None |}.

Definition world_of (f : json_file) : World := world_at 0 f.

(** A clock that stands still at [t], and one that advances a millisecond
    per reading. *)
Definition frozen_clock (t : datetime) : nat -> datetime := fun _ => t.
Definition running_clock (t : datetime) : nat -> datetime :=
  fun n => t + 1000 * Z.of_nat n.

Definition info (p : Pilot) (t : datetime) (d : float) : PilotInfo :=
  {| pilot := p; timeOfViolation := t; closestDistance := d |}.

(** Two drones 5 km and 8 km east of the nest, flown by the same pilot. *)
Definition drone_near : Drone := drone_at "SN-near" 255000%float 250000%float.
Definition drone_far : Drone := drone_at "SN-far" 258000%float 250000%float.

(** A drone on the circle, due west of the nest. *)
Definition drone_on_boundary : Drone :=
  drone_at "SN-edge" 150000%float 250000%float.

(** A platform whose [pow(a, 2.0)] is the square rounded to the nearest
    float. *)
Definition rounded_square (a : float) : float := (a * a)%float.

(** An answer with the status 200. *)
Definition answer (data : list Drone) : Response :=
  {| status_code := 200; body_drones := data |}.

Definition env_same_pilot (data : list Drone) : Env :=
  {| drones_endpoint := Ok (answer data);
     pilots_endpoint := fun _ => Ok pilot_P1;
     wall_clock := running_clock t0;
     libm_pow2 := rounded_square |}.

(** The lookup of ["SN-far"] fails, every other lookup answers. *)
Definition env_one_lookup_fails : Env :=
  {| drones_endpoint := Ok (answer [drone_near; drone_far]);
     pilots_endpoint :=
       fun s => if String.eqb s "SN-far" then Raise ConnectionError
                else Ok pilot_P1;
     wall_clock := running_clock t0;
     libm_pow2 := rounded_square |}.

Definition env_snapshot_down : Env :=
  {| drones_endpoint := Raise ConnectionError;
     pilots_endpoint := fun _ => Ok pilot_P1;
     wall_clock := running_clock t0;
     libm_pow2 := rounded_square |}.

(** A registry entry last seen exactly one day before the clock's [t0]. *)
Definition registry_day_old : dict PilotInfo :=
  [("P2", info pilot_P2 (t0 - 86400 * second) 5000%float)].

(** The registry of the specification's merge scenario. *)
Definition registry_P1 : dict PilotInfo :=
  [("P1", info pilot_P1 t0 5000%float)].

Definition env_frozen (t : datetime) : Env :=
  {| drones_endpoint := Ok (answer []);
     pilots_endpoint := fun _ => Ok pilot_P1;
     wall_clock := frozen_clock t;
     libm_pow2 := rounded_square |}.

(** The drones endpoint answers with the status 429 and a body without
    drones; the clock stands at [t]. *)
Definition env_error_page (t : datetime) : Env :=
  {| drones_endpoint := Ok {| status_code := 429; body_drones := [] |};
     pilots_endpoint := fun _ => Ok pilot_P1;
     wall_clock := frozen_clock t;
     libm_pow2 := rounded_square |}.

(** The same environment with another status code on the answer. *)
Definition with_status (env : Env) (status : Z) : Env :=
  {| drones_endpoint :=
       match drones_endpoint env with
       | Ok response =>
           Ok {| status_code := status; body_drones := body_drones response |}
       | Raise e => Raise e
       end;
     pilots_endpoint := pilots_endpoint env;
     wall_clock := wall_clock env;
     libm_pow2 := libm_pow2 env |}.

(** ** The text of an element: lines 51-57 and 80-81 *)

(** [s.split(sep)] for a separator of one character. *)
Fixpoint split_on (sep : Ascii.ascii) (s : string) : list string :=
  match s with
  | EmptyString => [EmptyString]
  | String c rest =>
      if Ascii.eqb c sep then EmptyString :: split_on sep rest
      else match split_on sep rest with
           | first :: others => String c first :: others
           | [] => [String c EmptyString]
           end
  end.

(** [sep in s] *)
Fixpoint occurs (sep : Ascii.ascii) (s : string) : bool :=
  match s with
  | EmptyString => false
  | String c rest => Ascii.eqb c sep || occurs sep rest
  end.

(** [str(tag).split(">")[1].split("<")[0]]; [None] is the [IndexError] of
    the index [1]. *)
Definition tag_text (tag_str : string) : option string :=
  match split_on ">"%char tag_str with
  | _ :: second :: _ =>
      match split_on "<"%char second with
      | first :: _ => Some first
      | [] => Some EmptyString
      end
  | _ => None
  end.

(** [a] is neither NaN nor infinite. *)
Definition is_finite (a : float) : bool :=
  match Prim2SF a with
  | S754_zero _ | S754_finite _ _ _ => true
  | _ => false
  end.

(** ** [check_forbidden_coords] on the elements as the parser hands them *)

Module Elements.

(** A [<drone>] element, as the three strings [str(drone.find(...))] that
    the loop body takes from it (["None"] when the child is missing). *)
Record DroneElement : Type := {
  serialNumber_str : string;
  positionX_str : string;
  positionY_str : string
}.

(** The index [1] of lines 56, 57 and 81. *)
Definition index_1 (o : option string) : result string :=
  match o with
  | Some s => Ok s
  | None => Raise IndexError
  end.

Section Reading.

(** Python's [float(s)]; [None] is its [ValueError]. *)
Variable float_of_string : string -> option float.

Definition float_ (s : string) : result float :=
  match float_of_string s with
  | Some v => Ok v
  | None => Raise ValueError
  end.

(** Lines 56-62, in the order the source evaluates them: both splits, then
    both conversions. *)
Definition read_coords (drone : DroneElement) : result (float * float) :=
  match index_1 (tag_text (positionX_str drone)) with
  | Raise e => Raise e
  | Ok x_coord_splitted =>
      match index_1 (tag_text (positionY_str drone)) with
      | Raise e => Raise e
      | Ok y_coord_splitted =>
          match float_ x_coord_splitted with
          | Raise e => Raise e
          | Ok x_coord =>
              match float_ y_coord_splitted with
              | Raise e => Raise e
              | Ok y_coord => Ok (x_coord, y_coord)
              end
          end
      end
  end.

(** Lines 51-83. *)
Definition check_element (env : Env)
  (illegal_drone_ids : dict (datetime * float)) (drone : DroneElement)
  : M (dict (datetime * float)) :=
  coords <- lift (read_coords drone) ;;
  let x_coord := fst coords in
  let y_coord := snd coords in
  if x_inside x_coord then
    distance <- lift (nest_distance env x_coord y_coord) ;;
    if PrimFloat.leb distance nfz_radius then
      ser_num <- lift (index_1 (tag_text (serialNumber_str drone))) ;;
      time <- now env ;;
      ret (dict_set ser_num (time, distance) illegal_drone_ids)
    else ret illegal_drone_ids
  else ret illegal_drone_ids.

(** Lines 42-85. *)
Definition check_forbidden_coords (env : Env) (drones : list DroneElement)
  : M (dict (datetime * float)) :=
  for_each (check_element env) drones [].

(** The element [el] reads as the drone [d]: both coordinates split and
    convert, and the serial number splits when the drone is recorded. *)
Definition reads_as (env : Env) (el : DroneElement) (d : Drone) : Prop :=
  read_coords el = Ok (positionX d, positionY d) /\
  (recorded env d = true -> tag_text (serialNumber_str el) = Some (serialNumber d)).

(** The element raises [e]: in its coordinates, in the distance of line 76,
    or in the serial number once it has passed both tests. *)
Definition faulty (env : Env) (el : DroneElement) (e : exn) : Prop :=
  read_coords el = Raise e \/
  exists x y,
    read_coords el = Ok (x, y) /\
    let d := {| serialNumber := EmptyString; positionX := x; positionY := y |} in
    nfz_distance env d = Raise e \/
    (recorded env d = true /\
     tag_text (serialNumber_str el) = None /\ e = IndexError).

End Reading.

End Elements.

(** ** The lines [convert_info_into_html] writes: lines 255-302 *)

Definition nl : string := String "010"%char EmptyString.
Definition dq : string := String "034"%char EmptyString.

(** [ style="font-family: Arial"] *)
Definition arial : string := " style=" ++ dq ++ "font-family: Arial" ++ dq.

Definition h1_close : string := "    </h1>" ++ nl.

Definition base_html : list string :=
  [ "<!DOCTYPE html>" ++ nl;
    "<html lang=" ++ dq ++ "en" ++ dq ++ ">" ++ nl;
    "    <head>" ++ nl;
    "    <meta charset=" ++ dq ++ "UTF-8" ++ dq ++ "><title>NFZ</title>" ++ nl;
    "    <meta http-equiv=" ++ dq ++ "refresh" ++ dq
      ++ " content=" ++ dq ++ "2" ++ dq ++ ">" ++ nl;
    "    <title> NFZ </title>" ++ nl;
    "    </head>" ++ nl;
    "<body>" ++ nl;
    "    <h1" ++ arial ++ ">" ++ nl;
    "        Pilots that recently violated the NFZ" ++ nl;
    h1_close;
    "</body>" ++ nl;
    "</html>" ].

Definition no_drones_line : string :=
  "<p" ++ arial ++ "> No drones seen in the NFZ for 10 minutes </p>".

(** [l.insert(-2, x)]: before the last two elements, at the front of a
    shorter list. *)
Definition insert_before_last_two {A} (x : A) (l : list A) : list A :=
  (firstn (List.length l - 2) l ++ x :: skipn (List.length l - 2) l)%list.

Section Html.

(** [f'{v:.2f}'] *)
Variable format_2f : float -> string.

Definition html_name (first last : string) : string :=
  "<h3" ++ arial ++ "> Pilot: " ++ first ++ " " ++ last ++ " </h3>" ++ nl.

Definition html_phone (phone : string) : string :=
  "<p" ++ arial ++ "> Phone number: " ++ phone ++ " </p>" ++ nl.

Definition html_email (mail : string) : string :=
  "<p" ++ arial ++ "> Email address: " ++ mail ++ " </p>" ++ nl.

Definition html_dis (distance : float) : string :=
  "<p" ++ arial ++ "> Closest distance to the nest: "
  ++ format_2f distance ++ " meters. </p>" ++ nl.

(** Lines 271-285: the body of the loop over [json_object]. *)
Definition insert_pilot (base : list string) (entry : string * PilotInfo)
  : list string :=
  let r := snd entry in
  let base := insert_before_last_two
                (html_name (firstName (pilot r)) (lastName (pilot r))) base in
  let base := insert_before_last_two (html_phone (phoneNumber (pilot r))) base in
  let base := insert_before_last_two (html_email (email (pilot r))) base in
  insert_before_last_two (html_dis (closestDistance r / 1000)%float) base.

(** Lines 255-293: the list that is written to [information.html] line by
    line.  [base_html[-3]] is in range: the list never gets shorter than
    its thirteen lines. *)
Definition html_lines (json_object : dict PilotInfo) : list string :=
  let base := fold_left insert_pilot json_object base_html in
  if String.eqb (nth (List.length base - 3) base EmptyString) h1_close
  then insert_before_last_two no_drones_line base
  else base.

(** The lines of one item of the page kept in [information_html]. *)
Definition item_lines (item : html_item) : list string :=
  match item with
  | PilotBlock first last phone mail distance =>
      [html_name first last; html_phone phone; html_email mail;
       html_dis distance]
  | NoDronesNotice => [no_drones_line]
  end.

End Html.

(** The page [convert_info_into_html] keeps for the registry [d]. *)
Definition page_of (d : dict PilotInfo) : list html_item :=
  match map (fun kv => pilot_block (snd kv)) d with
  | [] => [NoDronesNotice]
  | blocks => blocks
  end.

(** ** Concrete inputs for the element loop *)

(** [float] on the coordinate texts used below. *)
Definition float_of_sample (s : string) : option float :=
  if String.eqb s "255000.0" then Some 255000%float
  else if String.eqb s "250000.0" then Some 250000%float
  else if String.eqb s "400000.0" then Some 400000%float
  else if String.eqb s "1e200" then Some 0x1.4e718d7d7625ap+664%float
  else None.

(** The element with the serial number string [serial] and the coordinate
    texts [x] and [y]. *)
Definition element_of (serial x y : string) : Elements.DroneElement :=
  {| Elements.serialNumber_str := serial;
     Elements.positionX_str := "<positionX>" ++ x ++ "</positionX>";
     Elements.positionY_str := "<positionY>" ++ y ++ "</positionY>" |}.

(** The element of [drone_near]. *)
Definition element_near : Elements.DroneElement :=
  element_of "<serialNumber>SN-near</serialNumber>" "255000.0" "250000.0".

(** A drone outside the zone whose [<serialNumber>] child is missing. *)
Definition element_outside_unnamed : Elements.DroneElement :=
  element_of "None" "400000.0" "250000.0".

(** A drone due north of the nest at y = 1e200. *)
Definition element_beyond : Elements.DroneElement :=
  element_of "<serialNumber>SN-beyond</serialNumber>" "250000.0" "1e200".

(** A drone whose [<positionX>] child is missing. *)
Definition element_without_x : Elements.DroneElement :=
  {| Elements.serialNumber_str := "<serialNumber>SN-lost</serialNumber>";
     Elements.positionX_str := "None";
     Elements.positionY_str := "<positionY>250000.0</positionY>" |}.

(** [f'{v:.2f}'] on the one value printed below, 5.0. *)
Definition format_of_sample (v : float) : string := "5.00".

(** ** Concrete inputs for the expiry *)

(** A registry entry stamped on a whole second: [str] of its time has no
    fractional part. *)
Definition registry_whole_second : dict PilotInfo :=
  [("P2", info pilot_P2 (t0 - 1) 5000%float)].

(** P1 last seen at [t0], P2 one second earlier. *)
Definition registry_two : dict PilotInfo :=
  [("P1", info pilot_P1 t0 5000%float);
   ("P2", info pilot_P2 (t0 - second) 7000%float)].

(** 600.5 seconds after [t0]. *)
Definition t_late : datetime := t0 + 600 * second + 500000.

(** One hour before [t0]: the clock was set back. *)
Definition t_early : datetime := t0 - 3600 * second.

Definition env_frozen_with (t : datetime) (data : list Drone) : Env :=
  {| drones_endpoint := Ok (answer data);
     pilots_endpoint := fun _ => Ok pilot_P1;
     wall_clock := frozen_clock t;
     libm_pow2 := rounded_square |}.

(** 700 seconds after [t0]. *)
Definition t_700 : datetime := t0 + 700 * second.

(** A drone due north of the nest at y = 1e200: the square of its offset
    is beyond the floats. *)
Definition drone_beyond : Drone :=
  drone_at "SN-beyond" 250000%float 0x1.4e718d7d7625ap+664%float.

(** A store that is not UTF-8. *)
Definition not_utf8 : json_file := Unloadable UnicodeDecodeError.

(** A store that is not JSON. *)
Definition not_json : json_file := Unloadable JSONDecodeError.

(** * Properties *)

(** ** Dictionaries *)

Section DictFacts.
Context {V : Type}.
Implicit Types (d : dict V) (k : string) (v : V).

Lemma dict_get_set_eq k v d : dict_get k (dict_set k v d) = Some v.
Proof.
  induction d as [|[k' v'] rest IH]; simpl.
  - now rewrite String.eqb_refl.
  - destruct (String.eqb k k') eqn:E; simpl; rewrite ?String.eqb_refl, ?E; auto.
Qed.

Lemma dict_get_set_ne k k' v d :
  k <> k' -> dict_get k (dict_set k' v d) = dict_get k d.
Proof.
  intros Hne. induction d as [|[k0 v0] rest IH]; simpl.
  - apply String.eqb_neq in Hne. now rewrite Hne.
  - destruct (String.eqb k' k0) eqn:E; simpl.
    + apply String.eqb_eq in E; subst k0.
      apply String.eqb_neq in Hne. now rewrite Hne.
    + destruct (String.eqb k k0); auto.
Qed.

Lemma dict_get_del_eq k d : dict_get k (dict_del k d) = None.
Proof.
  induction d as [|[k' v'] rest IH]; simpl; auto.
  destruct (String.eqb k k') eqn:E; simpl; auto. now rewrite E.
Qed.

Lemma dict_get_del_ne k k' d :
  k <> k' -> dict_get k (dict_del k' d) = dict_get k d.
Proof.
  intros Hne. induction d as [|[k0 v0] rest IH]; simpl; auto.
  destruct (String.eqb k' k0) eqn:E; simpl.
  - apply String.eqb_eq in E; subst k0.
    apply String.eqb_neq in Hne. now rewrite Hne.
  - now rewrite IH.
Qed.

Lemma dict_get_In k v d : dict_get k d = Some v -> In (k, v) d.
Proof.
  induction d as [|[k' v'] rest IH]; simpl; [discriminate|].
  destruct (String.eqb k k') eqn:E.
  - apply String.eqb_eq in E. intros [= ->]. subst. now left.
  - auto.
Qed.

Lemma dict_get_not_key k d : ~ In k (dict_keys d) -> dict_get k d = None.
Proof.
  induction d as [|[k' v'] rest IH]; simpl; auto.
  intros H. destruct (String.eqb k k') eqn:E.
  - apply String.eqb_eq in E. subst. tauto.
  - apply IH. tauto.
Qed.

Lemma dict_mem_keys k d : dict_mem k d = true <-> In k (dict_keys d).
Proof.
  unfold dict_mem. induction d as [|[k' v'] rest IH]; simpl.
  - split; [discriminate | tauto].
  - destruct (String.eqb k k') eqn:E.
    + apply String.eqb_eq in E. subst. tauto.
    + apply String.eqb_neq in E. rewrite IH. split; [tauto|].
      intros [H|H]; [congruence | assumption].
Qed.

Lemma dict_set_Forall (P : string * V -> Prop) k v d :
  P (k, v) -> Forall P d -> Forall P (dict_set k v d).
Proof.
  intros Hkv. induction 1 as [|[k' v'] rest Hx Hrest IH]; simpl.
  - now constructor.
  - destruct (String.eqb k k'); constructor; auto.
Qed.

Lemma dict_del_Forall (P : string * V -> Prop) k d :
  Forall P d -> Forall P (dict_del k d).
Proof.
  intros H. unfold dict_del. rewrite Forall_forall in *.
  intros x Hx. apply filter_In in Hx. now apply H.
Qed.

Lemma dict_keys_set k v d :
  forall k', In k' (dict_keys (dict_set k v d)) <-> k' = k \/ In k' (dict_keys d).
Proof.
  intros k'. induction d as [|[k0 v0] rest IH]; simpl.
  - intuition.
  - destruct (String.eqb k k0) eqn:E; simpl.
    + apply String.eqb_eq in E. subst. intuition.
    + rewrite IH. intuition.
Qed.

End DictFacts.

(** ** Binary64 comparisons and square roots *)

Section FloatFacts.

Lemma binary_round_aux_sign prec emax mx ex lx :
  match SpecFloat.binary_round_aux prec emax false mx ex lx with
  | S754_zero s | S754_infinity s | S754_finite s _ _ => s = false
  | S754_nan => True
  end.
Proof.
  unfold SpecFloat.binary_round_aux.
  destruct (SpecFloat.shr_fexp prec emax mx ex lx) as [mrs' e'].
  destruct (SpecFloat.shr_fexp prec emax _ e' SpecFloat.loc_Exact) as [mrs'' e''].
  destruct (SpecFloat.shr_m mrs''); auto.
  destruct (Z.leb e'' (Z.sub emax prec)); auto.
Qed.

Lemma SFsqrt_sign prec emax x :
  match SpecFloat.SFsqrt prec emax x with
  | S754_infinity s | S754_finite s _ _ => s = false
  | _ => True
  end.
Proof.
  destruct x as [s|[|]| |[|] m e]; simpl; auto.
  destruct (SpecFloat.SFsqrt_core_binary prec emax (Z.pos m) e) as [[mz ez] lz].
  pose proof (binary_round_aux_sign prec emax mz ez lz) as H.
  destruct (SpecFloat.binary_round_aux prec emax false mz ez lz); auto.
Qed.

Lemma sqrt_nonneg (s c : float) :
  PrimFloat.leb (PrimFloat.sqrt s) c = true ->
  PrimFloat.leb 0%float (PrimFloat.sqrt s) = true.
Proof.
  rewrite !leb_spec, sqrt_spec. unfold SF64sqrt.
  pose proof (SFsqrt_sign prec emax (Prim2SF s)) as H.
  change (Prim2SF 0%float) with (S754_zero false).
  destruct (SpecFloat.SFsqrt prec emax (Prim2SF s)) as [z|i| |f m e];
    try subst; simpl; auto.
Qed.

Lemma SFcompare_antisym x y :
  SFcompare y x = option_map CompOpp (SFcompare x y).
Proof.
  destruct x as [sx|sx| |sx mx ex], y as [sy|sy| |sy my ey]; simpl; auto;
    try (destruct sx; reflexivity); try (destruct sy; reflexivity);
    try (destruct sx, sy; reflexivity).
  rewrite (Z.compare_antisym ey ex).
  assert (H : Pos.compare_cont Eq my mx = CompOpp (Pos.compare_cont Eq mx my))
    by (now rewrite Pos.compare_cont_antisym).
  change (PosDef.Pos.compare_cont Eq my mx) with (Pos.compare_cont Eq my mx).
  change (PosDef.Pos.compare_cont Eq mx my) with (Pos.compare_cont Eq mx my).
  rewrite H.
  destruct sx, sy; simpl; auto;
    destruct (Z.compare ey ex); simpl; auto;
    destruct (Pos.compare_cont Eq mx my); simpl; auto.
Qed.

Lemma SFcompare_refl x : x <> S754_nan -> SFcompare x x = Some Eq.
Proof.
  destruct x as [s|s| |s m e]; simpl; try congruence; intros _.
  - now destruct s.
  - rewrite Z.compare_refl.
    change (PosDef.Pos.compare_cont Eq m m) with (Pos.compare_cont Eq m m).
    rewrite Pos.compare_cont_refl. now destruct s.
Qed.

Lemma SFcompare_total x y :
  x <> S754_nan -> y <> S754_nan -> exists c, SFcompare x y = Some c.
Proof.
  destruct x as [sx|sx| |sx mx ex], y as [sy|sy| |sy my ey]; simpl;
    try congruence; eauto.
Qed.

Lemma is_number_spec a :
  is_number a = true <-> Prim2SF a <> S754_nan.
Proof.
  unfold is_number. rewrite eqb_spec. unfold SFeqb. split.
  - intros H E. rewrite E in H. discriminate.
  - intros H. now rewrite SFcompare_refl.
Qed.

Lemma float_min_lower_bound a b :
  is_number a = true -> is_number b = true ->
  PrimFloat.leb (float_min a b) a = true /\
  PrimFloat.leb (float_min a b) b = true.
Proof.
  intros Ha Hb. apply is_number_spec in Ha, Hb.
  unfold float_min. rewrite ltb_spec.
  destruct (SFltb (Prim2SF b) (Prim2SF a)) eqn:E; rewrite !leb_spec;
    unfold SFltb, SFleb in *.
  - rewrite (SFcompare_refl _ Hb).
    destruct (SFcompare (Prim2SF b) (Prim2SF a)) as [[| |]|]; auto; discriminate.
  - rewrite (SFcompare_refl _ Ha), (SFcompare_antisym (Prim2SF b) (Prim2SF a)).
    destruct (SFcompare_total _ _ Hb Ha) as [c Hc]. rewrite Hc in *.
    destruct c; simpl; auto; discriminate.
Qed.

Lemma float_min_choice a b : float_min a b = a \/ float_min a b = b.
Proof. unfold float_min. destruct (PrimFloat.ltb b a); auto. Qed.

End FloatFacts.

(** ** The state across a call *)

Lemma same_files_refl w : same_files w w.
Proof. split; reflexivity. Qed.

Lemma same_files_trans w1 w2 w3 :
  same_files w1 w2 -> same_files w2 w3 -> same_files w1 w3.
Proof. intros [A B] [C D]. split; congruence. Qed.

#[local] Hint Resolve same_files_refl : core.

Lemma for_each_files {A B} (body : B -> A -> M B) :
  (forall acc a w, same_files w (snd (body acc a w))) ->
  forall l acc w, same_files w (snd (for_each body l acc w)).
Proof.
  intros Hbody l. induction l as [|a rest IH]; intros acc w; simpl; auto.
  unfold bind. specialize (Hbody acc a w).
  destruct (body acc a w) as [[acc'|e] w1]; simpl in *; auto.
  eapply same_files_trans; eauto.
Qed.

Lemma for_each_ticks {A B} (body : B -> A -> M B) :
  (forall acc a w, (ticks w <= ticks (snd (body acc a w)))%nat) ->
  forall l acc w, (ticks w <= ticks (snd (for_each body l acc w)))%nat.
Proof.
  intros Hbody l. induction l as [|a rest IH]; intros acc w; simpl; auto.
  unfold bind. specialize (Hbody acc a w).
  destruct (body acc a w) as [[acc'|e] w1]; simpl in *; auto.
  specialize (IH acc' w1). lia.
Qed.

Lemma for_each_app {A B} (body : B -> A -> M B) l1 l2 :
  forall acc w,
    for_each body (l1 ++ l2)%list acc w =
    match for_each body l1 acc w with
    | (Ok acc', w') => for_each body l2 acc' w'
    | (Raise e, w') => (Raise e, w')
    end.
Proof.
  induction l1 as [|a rest IH]; intros acc w; simpl; auto.
  unfold bind. destruct (body acc a w) as [[acc'|e] w1]; auto.
Qed.

(** ** [check_forbidden_coords] *)

Section Detect.
Variable env : Env.

(** One turn of the loop: the exception of line 76, the drone passed over,
    or the drone recorded under the clock's reading. *)
Lemma check_drone_run acc d w :
  check_drone env acc d w =
  match nfz_distance env d with
  | Raise e => (Raise e, w)
  | Ok None => (Ok acc, w)
  | Ok (Some distance) =>
      (Ok (dict_set (serialNumber d) (wall_clock env (ticks w), distance) acc),
       {| ticks := S (ticks w);
          pilot_information_json := pilot_information_json w;
          information_html := information_html w |})
  end.
Proof.
  unfold check_drone, nfz_distance.
  destruct (x_inside (positionX d)); [|reflexivity].
  unfold bind, lift.
  destruct (nest_distance env (positionX d) (positionY d)) as [distance|e];
    [|reflexivity].
  destruct (PrimFloat.leb distance nfz_radius); reflexivity.
Qed.

Lemma forget_time_set s t d acc :
  forget_time (dict_set s (t, d) acc) = dict_set s d (forget_time acc).
Proof.
  induction acc as [|[k [t' d']] rest IH]; simpl; auto.
  destruct (String.eqb s k); simpl; congruence.
Qed.

Lemma forget_time_keys events : dict_keys (forget_time events) = dict_keys events.
Proof. unfold dict_keys, forget_time. rewrite map_map. reflexivity. Qed.

(** The loop of [check_forbidden_coords] from any accumulator: it touches no
    file, whether it returns or raises; without the clock it comes to
    [violations_from]; and when it returns, each event is a recorded drone
    of the snapshot stamped with a clock reading taken during the call. *)
Lemma check_loop data :
  forall acc w,
    let run := for_each (check_drone env) data acc w in
    same_files w (snd run) /\
    (ticks w <= ticks (snd run))%nat /\
    map_result forget_time (fst run)
    = violations_from env data (forget_time acc) /\
    forall events, fst run = Ok events ->
      forall P : string * (datetime * float) -> Prop,
        Forall P acc ->
        (forall d n distance,
            In d data -> nfz_distance env d = Ok (Some distance) ->
            (ticks w <= n < ticks (snd run))%nat ->
            P (serialNumber d, (wall_clock env n, distance))) ->
        Forall P events.
Proof.
  induction data as [|d rest IH]; intros acc w; cbn zeta.
  - simpl. split; [auto|]. split; [lia|]. split; [reflexivity|].
    intros events [= <-] P Hacc _. exact Hacc.
  - cbn [for_each violations_from]. unfold bind. rewrite check_drone_run.
    destruct (nfz_distance env d) as [[distance|]|e] eqn:Hd.
    + match goal with |- context [for_each _ rest ?a ?w1] =>
        destruct (IH a w1) as (Hf & Ht & Hv & HP) end.
      cbn zeta in *. simpl in Hf, Ht.
      split; [destruct Hf; split; assumption|]. split; [lia|].
      split; [now rewrite Hv, forget_time_set|].
      intros events Hrun P Hacc Hnew. apply (HP events Hrun P).
      * apply dict_set_Forall; [|assumption].
        apply (Hnew d (ticks w) distance);
          [now left | assumption | simpl in Ht; lia].
      * intros d' n dist' Hd' Hin' Hn.
        apply (Hnew d' n dist'); [now right | assumption | simpl in Hn; lia].
    + destruct (IH acc w) as (Hf & Ht & Hv & HP). cbn zeta in *.
      split; [exact Hf|]. split; [exact Ht|]. split; [exact Hv|].
      intros events Hrun P Hacc Hnew. apply (HP events Hrun P Hacc).
      intros d' n dist' Hd' Hin' Hn.
      apply (Hnew d' n dist'); [now right | assumption | assumption].
    + simpl. split; [auto|]. split; [lia|]. split; [reflexivity|].
      intros events H. discriminate H.
Qed.

Lemma violations_keys data :
  forall acc v s,
    violations_from env data acc = Ok v ->
    (In s (dict_keys v) <->
     In s (dict_keys acc) \/
     exists d distance, In d data /\ nfz_distance env d = Ok (Some distance) /\
                        serialNumber d = s).
Proof.
  induction data as [|d rest IH]; intros acc v s; simpl.
  - intros [= <-]. split; [auto | intros [H|(d & dist & [] & _)]; auto].
  - destruct (nfz_distance env d) as [[distance|]|e] eqn:Hd; [| |discriminate];
      intros Hv; rewrite (IH _ v s Hv); [rewrite dict_keys_set|]; split.
    + intros [[->|H]|(d' & dist' & H1 & H2 & H3)]; eauto 8.
    + intros [H|(d' & dist' & [->|H1] & H2 & H3)]; eauto 8.
    + intros [H|(d' & dist' & H1 & H2 & H3)]; eauto 8.
    + intros [H|(d' & dist' & [->|H1] & H2 & H3)]; eauto 8. congruence.
Qed.

End Detect.

Lemma check_forbidden_coords_run env data w :
  let run := check_forbidden_coords env data w in
  same_files w (snd run) /\
  (ticks w <= ticks (snd run))%nat /\
  map_result forget_time (fst run) = violations env data /\
  forall events, fst run = Ok events ->
    forall P : string * (datetime * float) -> Prop,
      (forall d n distance,
          In d data -> nfz_distance env d = Ok (Some distance) ->
          (ticks w <= n < ticks (snd run))%nat ->
          P (serialNumber d, (wall_clock env n, distance))) ->
      Forall P events.
Proof.
  destruct (check_loop env data [] w) as (H1 & H2 & H3 & H4).
  cbn zeta in *. split; [exact H1|]. split; [exact H2|]. split; [exact H3|].
  intros events Hrun P HP. apply (H4 events Hrun P); auto.
Qed.

(** What the code records, when the call returns: the drones that pass the
    guard on [x] and whose distance, as line 76 computes it, passes the
    test. *)
Theorem check_forbidden_coords_members env data w events s :
  fst (check_forbidden_coords env data w) = Ok events ->
  (dict_mem s events = true <->
   exists d distance,
     In d data /\ serialNumber d = s /\
     x_inside (positionX d) = true /\
     nest_distance env (positionX d) (positionY d) = Ok distance /\
     PrimFloat.leb distance nfz_radius = true).
Proof.
  intros Hrun.
  destruct (check_forbidden_coords_run env data w) as (_ & _ & Hv & _).
  cbn zeta in Hv. rewrite Hrun in Hv. simpl in Hv. symmetry in Hv.
  rewrite dict_mem_keys, <- forget_time_keys.
  unfold violations in Hv. rewrite (violations_keys env data [] _ s Hv).
  simpl. unfold nfz_distance. split.
  - intros [[]|(d & dist & H1 & H2 & H3)]. exists d.
    destruct (x_inside (positionX d)); [|discriminate].
    destruct (nest_distance env (positionX d) (positionY d)) as [dd|e];
      [|discriminate].
    exists dd. destruct (PrimFloat.leb dd nfz_radius) eqn:E; [|discriminate].
    auto.
  - intros (d & dist & H1 & H2 & H3 & H4 & H5). right. exists d, dist.
    rewrite H3, H4, H5. auto.
Qed.

Lemma check_forbidden_coords_members_near :
  dict_mem "SN-near" [("SN-near", (t0, 5000%float))] = true <->
  exists d distance,
    In d [drone_near] /\ serialNumber d = "SN-near" /\
    x_inside (positionX d) = true /\
    nest_distance (env_same_pilot []) (positionX d) (positionY d) = Ok distance /\
    PrimFloat.leb distance nfz_radius = true.
Proof.
  exact (check_forbidden_coords_members (env_same_pilot []) [drone_near]
           (world_of (Registry [])) [("SN-near", (t0, 5000%float))] "SN-near"
           eq_refl).
Defined.




(** C4 (the code departs from the claim).  A drone at (150000, 250000) is at
    distance exactly 100000 from the nest, which the claim counts as a
    violation, and [check_forbidden_coords] does not record it: the guard
    [150000 < x_coord < 350000] is strict. *)
Theorem boundary_drone_not_recorded :
  distance_to_nest (positionX drone_on_boundary) (positionY drone_on_boundary)
  = 100000%float /\
  violates_spec drone_on_boundary = true /\
  forall env w, check_forbidden_coords env [drone_on_boundary] w = (Ok [], w).
Proof.
  split; [reflexivity|]. split; [reflexivity|]. intros env w.
  unfold check_forbidden_coords. simpl. unfold bind.
  rewrite check_drone_run. reflexivity.
Qed.


(** ** [get_pilot_data]: the lookups *)

Section Resolve.
Variable env : Env.

(** The lookups read the network only: the state is untouched, whatever the
    outcome. *)
Lemma resolve_loop_world l :
  forall acc w, snd (for_each (resolve_drone env) l acc w) = w.
Proof.
  induction l as [|[s [t d]] rest IH]; intros acc w; simpl; auto.
  unfold bind, lift. destruct (pilots_endpoint env s); simpl; auto.
Qed.

(** When every lookup answers, the loop completes, and every entry of
    [pilot_data] is a pilot paired with the time and distance of one of the
    drones. *)
Lemma resolve_loop_ok l :
  forall acc w,
    forallb (resolvable env) (dict_keys l) = true ->
    exists pilot_data,
      for_each (resolve_drone env) l acc w = (Ok pilot_data, w) /\
      forall P : string * PilotInfo -> Prop,
        Forall P acc ->
        (forall s t d p, In (s, (t, d)) l -> pilots_endpoint env s = Ok p ->
                         P (pilotId p, info p t d)) ->
        Forall P pilot_data.
Proof.
  induction l as [|[s [t d]] rest IH]; intros acc w Hall; simpl in *.
  - exists acc. auto.
  - apply andb_true_iff in Hall. destruct Hall as [Hs Hall].
    unfold bind, lift, resolvable in *.
    destruct (pilots_endpoint env s) as [p|e] eqn:Hp; [|discriminate]. simpl.
    destruct (IH (dict_set (pilotId p) (info p t d) acc) w Hall)
      as (pilot_data & Hrun & HP).
    exists pilot_data. split; [exact Hrun|].
    intros P Hacc Hnew. apply HP.
    + apply dict_set_Forall; auto. apply (Hnew s t d p); auto.
    + intros s' t' d' p' Hin Hp'. apply (Hnew s' t' d' p'); auto.
Qed.

(** When some lookup fails, the loop raises. *)
Lemma resolve_loop_raise l :
  forall acc w,
    forallb (resolvable env) (dict_keys l) = false ->
    exists e, for_each (resolve_drone env) l acc w = (Raise e, w).
Proof.
  induction l as [|[s [t d]] rest IH]; intros acc w Hsome; simpl in *.
  - discriminate.
  - unfold bind, lift, resolvable in *.
    destruct (pilots_endpoint env s) as [p|e] eqn:Hp; simpl in *; eauto.
Qed.

End Resolve.

(** ** [get_pilot_data]: the merge *)

Lemma merge_entry_other k saved entry :
  k <> fst entry -> dict_get k (merge_entry saved entry) = dict_get k saved.
Proof.
  destruct entry as [pilot_id new]. simpl. intros Hne.
  destruct (dict_get pilot_id saved); now rewrite dict_get_set_ne.
Qed.

Lemma merge_pilot_data_other k pilot_data :
  forall saved,
    ~ In k (dict_keys pilot_data) ->
    dict_get k (merge_pilot_data pilot_data saved) = dict_get k saved.
Proof.
  unfold merge_pilot_data.
  induction pilot_data as [|entry rest IH]; intros saved Hk; simpl in *; auto.
  rewrite IH by tauto. apply merge_entry_other. intros ->. tauto.
Qed.

Lemma merge_entry_same saved pilot_id new :
  dict_get pilot_id (merge_entry saved (pilot_id, new)) =
  Some (merged (dict_get pilot_id saved) new).
Proof.
  simpl. destruct (dict_get pilot_id saved) as [old|]; rewrite dict_get_set_eq; auto.
  unfold merged, float_min, float_gt, set_closestDistance, set_timeOfViolation. simpl.
  destruct (PrimFloat.ltb (closestDistance new) (closestDistance old)); reflexivity.
Qed.

Lemma merge_entry_ok saved entry :
  registry_ok saved ->
  distance_ok (closestDistance (snd entry)) = true ->
  registry_ok (merge_entry saved entry).
Proof.
  destruct entry as [pilot_id new]. simpl. intros Hsaved Hnew.
  destruct (dict_get pilot_id saved) as [old|] eqn:Hold;
    apply dict_set_Forall; auto. simpl.
  apply dict_get_In in Hold.
  unfold registry_ok in Hsaved. rewrite Forall_forall in Hsaved.
  specialize (Hsaved _ Hold). simpl in Hsaved.
  unfold float_gt. destruct (PrimFloat.ltb _ _); simpl; auto.
Qed.

Lemma merge_pilot_data_ok pilot_data :
  forall saved,
    registry_ok saved -> registry_ok pilot_data ->
    registry_ok (merge_pilot_data pilot_data saved).
Proof.
  unfold merge_pilot_data.
  induction pilot_data as [|entry rest IH]; intros saved Hs Hp; simpl; auto.
  inversion Hp; subst. apply IH; auto. now apply merge_entry_ok.
Qed.

Lemma dict_set_keys_unique {V} k (v : V) d :
  NoDup (dict_keys d) -> NoDup (dict_keys (dict_set k v d)).
Proof.
  induction d as [|[k' v'] rest IH]; simpl; intros H.
  - constructor; [intros [] | constructor].
  - inversion H as [|? ? Hnotin Hrest]; subst.
    destruct (String.eqb k k') eqn:E; simpl.
    + apply String.eqb_eq in E. subst. now constructor.
    + constructor; auto. rewrite dict_keys_set. intros [->|Hin]; auto.
      apply String.eqb_neq in E. congruence.
Qed.

(** [pilot_data] is a dictionary: its keys are unique. *)
Lemma resolve_loop_keys_unique env l :
  forall acc w pilot_data,
    NoDup (dict_keys acc) ->
    fst (for_each (resolve_drone env) l acc w) = Ok pilot_data ->
    NoDup (dict_keys pilot_data).
Proof.
  induction l as [|[s [t d]] rest IH]; intros acc w pilot_data Hacc; simpl.
  - now intros [= <-].
  - unfold bind, lift. destruct (pilots_endpoint env s) as [p|e]; simpl.
    + apply IH. now apply dict_set_keys_unique.
    + discriminate.
Qed.

(** C2.  Merging [pilot_data] into the registry leaves, under the pilot id of
    each of its entries: the entry itself, with the event's time and distance,
    when the id was not in the registry; and otherwise the stored record with
    [timeOfViolation] overwritten by the event's time, whatever the
    distances, and [closestDistance] the minimum of the stored and the new
    distance. *)
Theorem merge_pilot_data_entry pilot_data saved p detected_at distance :
  NoDup (dict_keys pilot_data) ->
  dict_get (pilotId p) pilot_data = Some (info p detected_at distance) ->
  dict_get (pilotId p) (merge_pilot_data pilot_data saved) =
  match dict_get (pilotId p) saved with
  | None =>
      Some {| pilot := p;
              timeOfViolation := detected_at;
              closestDistance := distance |}
  | Some old =>
      Some {| pilot := pilot old;
              timeOfViolation := detected_at;
              closestDistance := float_min (closestDistance old) distance |}
  end.
Proof.
  revert saved.
  induction pilot_data as [|[k new] rest IH]; intros saved Hnd Hget;
    [discriminate|].
  change (merge_pilot_data ((k, new) :: rest) saved)
    with (merge_pilot_data rest (merge_entry saved (k, new))).
  inversion Hnd as [|? ? Hnotin Hrest]; subst.
  cbn [dict_get] in Hget.
  destruct (String.eqb (pilotId p) k) eqn:E.
  - apply String.eqb_eq in E. subst k. injection Hget as ->.
    rewrite merge_pilot_data_other by assumption.
    rewrite merge_entry_same. destruct (dict_get (pilotId p) saved); reflexivity.
  - rewrite IH by assumption.
    rewrite merge_entry_other; [reflexivity|].
    apply String.eqb_neq in E. exact E.
Qed.

(** The specification's scenario: P1 stored at 5000 and time T, a new event
    at 8000 and time T + 1 s. *)
Lemma merge_pilot_data_entry_scenario :
  NoDup (dict_keys [("P1", info pilot_P1 (t0 + second) 8000%float)]) /\
  dict_get "P1"
    (merge_pilot_data [("P1", info pilot_P1 (t0 + second) 8000%float)] registry_P1)
  = Some (info pilot_P1 (t0 + second) 5000%float).
Proof.
  assert (Hnd : NoDup (dict_keys [("P1", info pilot_P1 (t0 + second) 8000%float)])).
  { constructor; [intros [] | constructor]. }
  split; [exact Hnd|].
  exact (merge_pilot_data_entry
           [("P1", info pilot_P1 (t0 + second) 8000%float)] registry_P1
           pilot_P1 (t0 + second) 8000%float Hnd eq_refl).
Defined.

(** C3 (the code departs from the claim).  Two events of one batch that
    resolve to the same pilot: [pilot_data] keeps the one processed last, so
    the stored record depends on the order, both in [get_pilot_data] and in
    the whole cycle. *)
Theorem same_pilot_batch_depends_on_order :
  let e_near := ("SN-near", (t0, 5000%float)) in
  let e_far := ("SN-far", (t0 + 1000, 8000%float)) in
  let w := world_at 2 (Registry []) in
  pilot_information_json
    (snd (get_pilot_data (env_same_pilot []) [e_near; e_far] w))
  = Registry [("P1", info pilot_P1 (t0 + 1000) 8000%float)] /\
  pilot_information_json
    (snd (get_pilot_data (env_same_pilot []) [e_far; e_near] w))
  = Registry [("P1", info pilot_P1 t0 5000%float)] /\
  pilot_information_json
    (snd (update_web_page (env_same_pilot [drone_near; drone_far])
            (world_of (Registry []))))
  = Registry [("P1", info pilot_P1 (t0 + 1000) 8000%float)] /\
  pilot_information_json
    (snd (update_web_page (env_same_pilot [drone_far; drone_near])
            (world_of (Registry []))))
  = Registry [("P1", info pilot_P1 (t0 + 1000) 5000%float)].
Proof. repeat split; vm_compute; reflexivity. Qed.

(** C1 (the code departs from the claim).  An entry last seen exactly one
    day ago has an elapsed time far above 600 seconds, which the claim
    removes; [difference.seconds] is 0 for it, and the code keeps it, in
    [expire] and through the whole cycle. *)
Theorem day_old_entry_survives_expire :
  expire_spec registry_day_old t0 = [] /\
  fst (expire (env_frozen t0) registry_day_old (world_of (Registry registry_day_old)))
  = Ok registry_day_old /\
  update_web_page (env_frozen t0) (world_of (Registry registry_day_old))
  = (Ok tt,
     {| ticks := 1;
        pilot_information_json := Registry registry_day_old;
        information_html :=
          Some [PilotBlock "Bo" "Berg" "+358402" "bo@example.com" 5%float] |}).
Proof. repeat split; vm_compute; reflexivity. Qed.

(** ** [get_pilot_data]: the expiry and the write *)

(** Within a day of the sighting, [difference.seconds > 600] is
    "at least 601 whole seconds have passed". *)
Lemma timedelta_seconds_within_a_day d :
  0 <= d < seconds_per_day * microseconds_per_second ->
  (timedelta_seconds d >? 600) = (601 * microseconds_per_second <=? d).
Proof.
  unfold timedelta_seconds, seconds_per_day, microseconds_per_second. intros H.
  pose proof (Z.div_mod d 1000000 ltac:(lia)) as Hdiv.
  pose proof (Z.mod_pos_bound d 1000000 ltac:(lia)) as Hmod.
  rewrite Z.mod_small by lia. rewrite Z.gtb_ltb.
  destruct (Z.ltb_spec 600 (d / 1000000)), (Z.leb_spec (601 * 1000000) d);
    try reflexivity; lia.
Qed.

(** A whole number of days does not show in [difference.seconds]. *)
Lemma timedelta_seconds_forgets_days d n :
  timedelta_seconds (d + n * (seconds_per_day * microseconds_per_second))
  = timedelta_seconds d.
Proof.
  unfold timedelta_seconds, seconds_per_day, microseconds_per_second.
  replace (d + n * (86400 * 1000000)) with (d + (n * 86400) * 1000000) by ring.
  rewrite Z.div_add by lia. now rewrite Z.mod_add by lia.
Qed.

Section Expire.
Variable env : Env.

Lemma check_expired_files acc entry w :
  same_files w (snd (check_expired env acc entry w)).
Proof.
  destruct entry as [pilot_id r]. unfold check_expired, bind, now, lift. simpl.
  destruct (strptime (timeOfViolation r)); simpl; [|split; reflexivity].
  destruct (timedelta_seconds _ >? 600); split; reflexivity.
Qed.

Lemma fold_del_Forall (P : string * PilotInfo -> Prop) keys :
  forall d, Forall P d ->
            Forall P (fold_left (fun d key => dict_del key d) keys d).
Proof.
  induction keys as [|k rest IH]; intros d H; simpl; auto.
  apply IH. now apply dict_del_Forall.
Qed.

Lemma expire_files saved w : same_files w (snd (expire env saved w)).
Proof.
  unfold expire, bind.
  pose proof (for_each_files (check_expired env) check_expired_files saved [] w) as H.
  destruct (for_each (check_expired env) saved [] w) as [[keys|e] w']; exact H.
Qed.

Lemma expire_keeps (P : string * PilotInfo -> Prop) saved w :
  Forall P saved ->
  match fst (expire env saved w) with
  | Ok d => Forall P d
  | Raise _ => True
  end.
Proof.
  intros H. unfold expire, bind.
  destruct (for_each (check_expired env) saved [] w) as [[keys|e] w']; simpl; auto.
  now apply fold_del_Forall.
Qed.

Lemma expire_empty w : expire env [] w = (Ok [], w).
Proof. reflexivity. Qed.

(** [get_pilot_data] step by step: the lookups, the [open], the load and
    merge, the expiry, the write. *)
Lemma get_pilot_data_run drones_in_nfz w :
  get_pilot_data env drones_in_nfz w =
  match fst (resolve_pilots env drones_in_nfz w) with
  | Raise e => (Raise e, w)
  | Ok pilot_data =>
      match pilot_information_json w with
      | Missing => (Raise FileNotFoundError, w)
      | f =>
          match load_and_merge pilot_data f with
          | Raise e => (Raise e, w)
          | Ok saved_pilot_info =>
              match expire env saved_pilot_info w with
              | (Ok d, w') => (Ok tt, with_pilot_information w' (Registry d))
              | (Raise e, w') => (Raise e, w')
              end
          end
      end
  end.
Proof.
  unfold get_pilot_data, bind, resolve_pilots.
  pose proof (resolve_loop_world env drones_in_nfz [] w) as Hw.
  destruct (for_each (resolve_drone env) drones_in_nfz [] w) as [[pd|e] w1];
    simpl in *; subst w1; auto.
  unfold open_pilot_information, lift.
  destruct (pilot_information_json w) as [|e|d]; auto;
    destruct (load_and_merge pd _); auto.
Qed.

End Expire.

(** ** What the expiry does under a clock that stands still *)

Lemma fold_del_filter {V} keys :
  forall d : dict V,
    fold_left (fun d key => dict_del key d) keys d =
    filter (fun kv => negb (existsb (String.eqb (fst kv)) keys)) d.
Proof.
  induction keys as [|k rest IH]; intros d; simpl.
  - induction d as [|kv d IHd]; simpl; congruence.
  - rewrite IH. unfold dict_del. clear IH.
    induction d as [|kv d IHd]; simpl; auto.
    rewrite (String.eqb_sym (fst kv) k).
    destruct (String.eqb k (fst kv)); simpl; auto.
    destruct (existsb _ rest); simpl; congruence.
Qed.

Lemma unique_key_entry {V} (d : dict V) kv kv' :
  NoDup (dict_keys d) -> In kv d -> In kv' d -> fst kv = fst kv' -> kv = kv'.
Proof.
  induction d as [|x d IH]; simpl; intros Hnd H1 H2 Hk; [tauto|].
  inversion Hnd as [|? ? Hnotin Hrest]; subst.
  destruct H1 as [->|H1], H2 as [->|H2]; auto.
  - exfalso. apply Hnotin. rewrite Hk. now apply in_map.
  - exfalso. apply Hnotin. rewrite <- Hk. now apply in_map.
Qed.

Section ExpireFrozen.
Variables (env : Env) (now_ : datetime).
Hypothesis frozen : forall n, wall_clock env n = now_.

Lemma collect_expired_frozen saved :
  Forall (fun kv => strptime (timeOfViolation (snd kv))
                    = Ok (timeOfViolation (snd kv))) saved ->
  forall acc w,
    fst (for_each (check_expired env) saved acc w) =
    Ok (acc ++ dict_keys (filter (fun kv => expired_at now_ (snd kv)) saved))%list.
Proof.
  induction 1 as [|[k r] rest Hparse _ IH]; intros acc w; simpl.
  - now rewrite app_nil_r.
  - unfold bind at 1. unfold check_expired, bind, now, lift.
    simpl in Hparse. rewrite Hparse, frozen. fold (expired_at now_ r).
    destruct (expired_at now_ r); simpl; rewrite IH; [|reflexivity].
    now rewrite <- app_assoc.
Qed.

(** On a registry whose timestamps parse, the expiry keeps exactly the
    entries with [difference.seconds <= 600]. *)
Lemma expire_frozen_clock saved w :
  NoDup (dict_keys saved) ->
  Forall (fun kv => strptime (timeOfViolation (snd kv))
                    = Ok (timeOfViolation (snd kv))) saved ->
  fst (expire env saved w) =
  Ok (filter (fun kv => negb (expired_at now_ (snd kv))) saved).
Proof.
  intros Hnd Hparse. unfold expire, bind.
  pose proof (collect_expired_frozen saved Hparse [] w) as Hkeys.
  destruct (for_each (check_expired env) saved [] w) as [[keys|e] w'];
    simpl in *; [|discriminate].
  injection Hkeys as ->. rewrite fold_del_filter. f_equal.
  apply filter_ext_in. intros kv Hkv. f_equal.
  destruct (expired_at now_ (snd kv)) eqn:E.
  - apply existsb_exists. exists (fst kv). split; [|apply String.eqb_refl].
    apply in_map. apply filter_In. auto.
  - destruct (existsb _ _) eqn:Ex; [|reflexivity].
    apply existsb_exists in Ex. destruct Ex as (k & Hk & Heq).
    apply String.eqb_eq in Heq. apply in_map_iff in Hk.
    destruct Hk as (kv' & <- & Hkv'). apply filter_In in Hkv'.
    destruct Hkv' as [Hin' E'].
    rewrite (unique_key_entry saved kv kv' Hnd Hkv Hin' Heq) in E. congruence.
Qed.

(** When every entry was last seen within the day before [now_], these are
    the entries seen less than 601 seconds ago: the specification's 600
    seconds and the fraction of a second that [.seconds] drops. *)
Lemma expire_within_a_day saved w :
  NoDup (dict_keys saved) ->
  Forall (fun kv => strptime (timeOfViolation (snd kv))
                    = Ok (timeOfViolation (snd kv))) saved ->
  Forall (fun kv => 0 <= now_ - timeOfViolation (snd kv)
                    < seconds_per_day * microseconds_per_second) saved ->
  fst (expire env saved w) =
  Ok (filter (fun kv => now_ - timeOfViolation (snd kv)
                        <? 601 * microseconds_per_second) saved).
Proof.
  intros Hnd Hparse Hday. rewrite expire_frozen_clock by assumption. f_equal.
  apply filter_ext_in. intros kv Hkv. rewrite Forall_forall in Hday.
  unfold expired_at. rewrite timedelta_seconds_within_a_day by auto.
  now rewrite Z.leb_antisym, negb_involutive.
Qed.

End ExpireFrozen.

(** ** [convert_info_into_html] and the cycle *)

Lemma convert_info_into_html_json w :
  pilot_information_json (snd (convert_info_into_html w)) = pilot_information_json w.
Proof.
  unfold convert_info_into_html, bind, open_pilot_information, lift.
  destruct (pilot_information_json w) eqn:E; simpl; auto.
Qed.

Lemma convert_info_into_html_registry w d :
  pilot_information_json w = Registry d ->
  exists page,
    convert_info_into_html w =
    (Ok tt, {| ticks := ticks w;
               pilot_information_json := Registry d;
               information_html := Some page |}).
Proof.
  intros E. unfold convert_info_into_html, bind, open_pilot_information, lift.
  destruct w as [n f page0]. simpl in *. subst f. simpl. eauto.
Qed.

(** The cycle step by step. *)
Lemma update_web_page_run env w :
  update_web_page env w =
  match drones_endpoint env with
  | Raise e => (Raise e, w)
  | Ok response =>
      match check_forbidden_coords env (body_drones response) w with
      | (Raise e, w1) => (Raise e, w1)
      | (Ok drones_in_nfz, w1) =>
          match get_pilot_data env drones_in_nfz w1 with
          | (Raise e, w2) => (Raise e, w2)
          | (Ok _, w2) => convert_info_into_html w2
          end
      end
  end.
Proof.
  unfold update_web_page, bind, get_drone_data, lift.
  destruct (drones_endpoint env); reflexivity.
Qed.

(** The status code of the answer has no part in the cycle. *)
Lemma update_web_page_status env status w :
  update_web_page (with_status env status) w = update_web_page env w.
Proof.
  rewrite !update_web_page_run. unfold with_status. simpl.
  destruct (drones_endpoint env) as [response|e]; reflexivity.
Qed.

Lemma nfz_distance_some env d distance :
  nfz_distance env d = Ok (Some distance) ->
  x_inside (positionX d) = true /\
  nest_distance env (positionX d) (positionY d) = Ok distance /\
  PrimFloat.leb distance nfz_radius = true.
Proof.
  unfold nfz_distance.
  destruct (x_inside (positionX d)); [|discriminate].
  destruct (nest_distance env (positionX d) (positionY d)) as [dd|e];
    [|discriminate].
  destruct (PrimFloat.leb dd nfz_radius) eqn:E; [|discriminate].
  intros [= <-]. auto.
Qed.

Lemma nest_distance_sqrt env x y distance :
  nest_distance env x y = Ok distance ->
  exists v, distance = PrimFloat.sqrt v.
Proof.
  unfold nest_distance, math_sqrt.
  destruct (float_pow2 _ _) as [sx|e]; [|discriminate].
  destruct (float_pow2 _ _) as [sy|e]; [|discriminate].
  destruct (PrimFloat.ltb _ _); [discriminate|].
  intros [= <-]. eauto.
Qed.

(** Every drone that is recorded was in the snapshot and passed the tests. *)
Lemma recorded_drones env data w events :
  fst (check_forbidden_coords env data w) = Ok events ->
  Forall (fun kv => exists d, In d data /\
                              serialNumber d = fst kv /\
                              nfz_distance env d = Ok (Some (snd (snd kv))))
    events.
Proof.
  intros Hrun.
  destruct (check_forbidden_coords_run env data w) as (_ & _ & _ & HP).
  apply (HP events Hrun). intros d n distance Hd Hin _. exists d. auto.
Qed.

Lemma recorded_distances_ok env data w events :
  fst (check_forbidden_coords env data w) = Ok events ->
  Forall (fun kv => distance_ok (snd (snd kv)) = true) events.
Proof.
  intros Hrun. apply recorded_drones in Hrun.
  eapply Forall_impl; [|exact Hrun]. intros kv (d & _ & _ & Hd).
  apply nfz_distance_some in Hd. destruct Hd as (_ & Hdist & Hle).
  apply nest_distance_sqrt in Hdist. destruct Hdist as (v & Hv).
  unfold distance_ok. rewrite Hle, andb_true_r.
  rewrite Hv in *. eapply sqrt_nonneg. exact Hle.
Qed.

Lemma dict_set_nonempty {V} k (v : V) d : dict_set k v d <> [].
Proof. destruct d as [|[k' v'] rest]; simpl; [|destruct (String.eqb k k')]; discriminate. Qed.

Lemma merge_pilot_data_nonempty pilot_data :
  forall saved,
    pilot_data <> [] \/ saved <> [] -> merge_pilot_data pilot_data saved <> [].
Proof.
  induction pilot_data as [|[k new] rest IH]; intros saved H.
  - destruct H as [H|H]; [congruence | exact H].
  - change (merge_pilot_data ((k, new) :: rest) saved)
      with (merge_pilot_data rest (merge_entry saved (k, new))).
    apply IH. right. simpl.
    destruct (dict_get k saved); apply dict_set_nonempty.
Qed.

Lemma load_and_merge_other pilot_data e :
  e <> JSONDecodeError -> load_and_merge pilot_data (Unloadable e) = Raise e.
Proof. intros He. destruct e; [reflexivity|congruence|reflexivity..]. Qed.

(** The first lookup that fails ends the loop with its exception. *)
Lemma resolve_loop_first_failure env good s v rest e w :
  forallb (resolvable env) (dict_keys good) = true ->
  pilots_endpoint env s = Raise e ->
  for_each (resolve_drone env) (good ++ (s, v) :: rest)%list [] w = (Raise e, w).
Proof.
  intros Hgood Hs. rewrite for_each_app.
  destruct (resolve_loop_ok env good [] w Hgood) as (pd & -> & _).
  destruct v as [t d]. cbn [for_each]. unfold bind at 1.
  unfold resolve_drone, bind, lift. rewrite Hs. reflexivity.
Qed.

Lemma first_unresolvable env (l : dict (datetime * float)) :
  forallb (resolvable env) (dict_keys l) = false ->
  exists good s v rest e,
    l = (good ++ (s, v) :: rest)%list /\
    forallb (resolvable env) (dict_keys good) = true /\
    pilots_endpoint env s = Raise e.
Proof.
  induction l as [|[s v] rest IH]; simpl; [discriminate|].
  unfold resolvable at 1. destruct (pilots_endpoint env s) as [p|e] eqn:Hs.
  - simpl. intros H.
    destruct (IH H) as (good & s' & v' & rest' & e & -> & Hg & He).
    exists ((s, v) :: good), s', v', rest', e. simpl.
    unfold resolvable at 1. rewrite Hs. auto.
  - intros _. exists [], s, v, rest, e. auto.
Qed.

(** C7, as the claim states it, fails: the drones endpoint answers with an
    error status and a body without drones, which the code does not tell
    from an empty sky; the cycle runs on, the entry of 700 seconds ago
    expires and the registry file is rewritten, empty. *)
Lemma error_page_cycle_rewrites_registry :
  fetch_failed (env_error_page t_700) /\
  pilot_information_json (world_of (Registry registry_P1)) = Registry registry_P1 /\
  pilot_information_json
    (snd (update_web_page (env_error_page t_700) (world_of (Registry registry_P1))))
  = Registry [] /\
  ~ aborts_leaving_registry (env_error_page t_700) (world_of (Registry registry_P1)).
Proof.
  split; [discriminate|]. split; [reflexivity|]. split; [reflexivity|].
  intros [_ Hsame]. vm_compute in Hsame. discriminate Hsame.
Qed.

(** C7 (amended).  When the snapshot fetch raises, the cycle aborts with
    that error and the state is the one before the cycle: nothing was read
    from or written to the registry.  An answer that arrives is never a
    failure to the code, whatever its status: the cycle is the one that the
    drones found in its body give, and the same under any other status
    code. *)
Theorem snapshot_failure_leaves_state env w :
  (forall e, drones_endpoint env = Raise e ->
             update_web_page env w = (Raise e, w)) /\
  (forall response,
     drones_endpoint env = Ok response ->
     update_web_page env w =
     (drones_in_nfz <- check_forbidden_coords env (body_drones response) ;;
      get_pilot_data env drones_in_nfz ;;;
      convert_info_into_html)%py w) /\
  (forall status,
     update_web_page (with_status env status) w = update_web_page env w).
Proof.
  split; [|split].
  - intros e H. rewrite update_web_page_run, H. reflexivity.
  - intros response H. unfold update_web_page, get_drone_data, bind, lift.
    rewrite H. reflexivity.
  - intros status. apply update_web_page_status.
Qed.

Lemma snapshot_failure_leaves_state_P1 :
  update_web_page env_snapshot_down (world_of (Registry registry_P1))
  = (Raise ConnectionError, world_of (Registry registry_P1)) /\
  update_web_page (with_status (env_error_page t_700) 200)
    (world_of (Registry registry_P1))
  = update_web_page (env_error_page t_700) (world_of (Registry registry_P1)).
Proof.
  split.
  - exact (proj1 (snapshot_failure_leaves_state env_snapshot_down
                    (world_of (Registry registry_P1))) ConnectionError eq_refl).
  - exact (proj2 (proj2 (snapshot_failure_leaves_state (env_error_page t_700)
                           (world_of (Registry registry_P1)))) 200).
Defined.

(** C9, as the claim states it, fails: a store whose bytes are not UTF-8
    fails to parse with [UnicodeDecodeError], which the handler of line 169
    does not catch; [get_pilot_data] aborts and the store is left as it
    is. *)
Lemma store_not_utf8_is_not_overwritten :
  get_pilot_data (env_same_pilot []) [("SN-near", (t0, 5000%float))]
    (world_at 1 not_utf8)
  = (Raise UnicodeDecodeError, world_at 1 not_utf8) /\
  ~ overwritten_with_empty (env_same_pilot []) [("SN-near", (t0, 5000%float))]
      (world_at 1 not_utf8).
Proof.
  split; [reflexivity|].
  unfold overwritten_with_empty.
  change (get_pilot_data (env_same_pilot []) [("SN-near", (t0, 5000%float))]
            (world_at 1 not_utf8))
    with (@Raise unit UnicodeDecodeError, world_at 1 not_utf8).
  discriminate.
Qed.

(** C9 (amended).  When [json.load] raises [JSONDecodeError] on the stored
    file, the events of the cycle, already resolved into [pilot_data], are
    dropped too (they would have been kept had the file held the empty
    registry), and the file is overwritten with the empty registry.  When
    [json.load] raises anything else, [get_pilot_data] aborts with it and
    the file stays as it is. *)
Theorem undecodable_store_discards_events env drones_in_nfz w pilot_data e :
  pilot_information_json w = Unloadable e ->
  fst (resolve_pilots env drones_in_nfz w) = Ok pilot_data ->
  (e = JSONDecodeError ->
   load_and_merge pilot_data (pilot_information_json w) = Ok [] /\
   (pilot_data <> [] ->
    exists d, load_and_merge pilot_data (Registry []) = Ok d /\ d <> []) /\
   get_pilot_data env drones_in_nfz w
   = (Ok tt, with_pilot_information w (Registry []))) /\
  (e <> JSONDecodeError ->
   get_pilot_data env drones_in_nfz w = (Raise e, w)).
Proof.
  intros Hfile Hres. rewrite get_pilot_data_run, Hres, Hfile. split.
  - intros ->. split; [reflexivity|]. split; [|reflexivity].
    intros Hne. eexists. split; [reflexivity|].
    apply merge_pilot_data_nonempty. now left.
  - intros He. now rewrite (load_and_merge_other pilot_data e He).
Qed.

Lemma undecodable_store_discards_events_near :
  get_pilot_data (env_same_pilot []) [("SN-near", (t0, 5000%float))]
    (world_at 1 not_json)
  = (Ok tt, world_at 1 (Registry [])) /\
  get_pilot_data (env_same_pilot []) [("SN-near", (t0, 5000%float))]
    (world_at 1 not_utf8)
  = (Raise UnicodeDecodeError, world_at 1 not_utf8).
Proof.
  split.
  - exact (proj2 (proj2 (proj1 (undecodable_store_discards_events
             (env_same_pilot []) [("SN-near", (t0, 5000%float))]
             (world_at 1 not_json) [("P1", info pilot_P1 t0 5000%float)]
             JSONDecodeError eq_refl eq_refl) eq_refl))).
  - exact (proj2 (undecodable_store_discards_events
             (env_same_pilot []) [("SN-near", (t0, 5000%float))]
             (world_at 1 not_utf8) [("P1", info pilot_P1 t0 5000%float)]
             UnicodeDecodeError eq_refl eq_refl)
             ltac:(discriminate)).
Defined.

(** C5, as the claim states it, fails: with the file missing the cycle
    aborts, and with a file that is not JSON the cycle leaves another
    registry than the one it leaves when started from the empty registry. *)
Lemma unreadable_store_not_read_as_empty :
  ~ store_read_as_empty (env_same_pilot [drone_near]) (world_of Missing) /\
  ~ store_read_as_empty (env_same_pilot [drone_near]) (world_of not_json).
Proof.
  split; intros [Hok Hsame].
  - vm_compute in Hok. discriminate Hok.
  - vm_compute in Hsame. discriminate Hsame.
Qed.

(** C5 (amended).  In a cycle whose snapshot fetch, detection and pilot
    lookups succeed, what the store holds decides: on a stored file that is
    not JSON, [get_pilot_data] completes with the empty registry written
    back, none of the cycle's events in it, and the cycle goes on to build
    the page from that registry; a missing file aborts the cycle with
    [FileNotFoundError]; a file on which [json.load] raises anything but
    [JSONDecodeError] aborts the cycle with that exception.  In the two
    aborted cases neither file is written. *)
Theorem unreadable_store_cycle env response w events w1 :
  drones_endpoint env = Ok response ->
  check_forbidden_coords env (body_drones response) w = (Ok events, w1) ->
  forallb (resolvable env) (dict_keys events) = true ->
  same_files w w1 /\
  (pilot_information_json w = Unloadable JSONDecodeError ->
   get_pilot_data env events w1
   = (Ok tt, with_pilot_information w1 (Registry [])) /\
   update_web_page env w
   = convert_info_into_html (with_pilot_information w1 (Registry []))) /\
  (pilot_information_json w = Missing ->
   update_web_page env w = (Raise FileNotFoundError, w1)) /\
  (forall e,
     pilot_information_json w = Unloadable e -> e <> JSONDecodeError ->
     update_web_page env w = (Raise e, w1)).
Proof.
  intros Hdata Hrun Hkeys. rewrite update_web_page_run, Hdata, Hrun.
  destruct (check_forbidden_coords_run env (body_drones response) w)
    as (Hfiles & _). cbn zeta in Hfiles. rewrite Hrun in Hfiles.
  simpl in Hfiles. split; [exact Hfiles|]. destruct Hfiles as [Hjson _].
  destruct (resolve_loop_ok env events [] w1 Hkeys) as (pilot_data & Hres & _).
  rewrite get_pilot_data_run. unfold resolve_pilots. rewrite Hres. simpl.
  rewrite Hjson. split; [|split].
  - intros ->. simpl. split; reflexivity.
  - intros ->. reflexivity.
  - intros e -> He. now rewrite (load_and_merge_other pilot_data e He).
Qed.

Lemma unreadable_store_cycle_near :
  update_web_page (env_same_pilot [drone_near]) (world_of not_json)
  = convert_info_into_html (world_at 1 (Registry [])) /\
  update_web_page (env_same_pilot [drone_near]) (world_of Missing)
  = (Raise FileNotFoundError, world_at 1 Missing) /\
  update_web_page (env_same_pilot [drone_near]) (world_of not_utf8)
  = (Raise UnicodeDecodeError, world_at 1 not_utf8).
Proof.
  split; [|split].
  - exact (proj2 (proj1 (proj2 (unreadable_store_cycle
             (env_same_pilot [drone_near]) (answer [drone_near])
             (world_of not_json) [("SN-near", (t0, 5000%float))]
             (world_at 1 not_json) eq_refl eq_refl eq_refl)) eq_refl)).
  - exact (proj1 (proj2 (proj2 (unreadable_store_cycle
             (env_same_pilot [drone_near]) (answer [drone_near])
             (world_of Missing) [("SN-near", (t0, 5000%float))]
             (world_at 1 Missing) eq_refl eq_refl eq_refl))) eq_refl).
  - exact (proj2 (proj2 (proj2 (unreadable_store_cycle
             (env_same_pilot [drone_near]) (answer [drone_near])
             (world_of not_utf8) [("SN-near", (t0, 5000%float))]
             (world_at 1 not_utf8) eq_refl eq_refl eq_refl)))
             UnicodeDecodeError eq_refl ltac:(discriminate)).
Defined.

(** C6, as the claim states it, fails: when one of two lookups fails, the
    cycle does not complete. *)
Lemma failed_lookup_aborts_the_cycle_for_all :
  ~ failed_lookup_only_drops_event env_one_lookup_fails (world_of (Registry [])).
Proof. intros [Hok _]. vm_compute in Hok. discriminate Hok. Qed.

(** C6 (amended).  When the pilot lookup fails for some recorded drone,
    the cycle aborts with the error of the first lookup that fails, in the
    order in which the drones were recorded, before the registry is read:
    no event of the cycle is merged, nothing expires, and neither file is
    written. *)
Theorem failed_lookup_aborts_cycle env response w events w1 :
  drones_endpoint env = Ok response ->
  check_forbidden_coords env (body_drones response) w = (Ok events, w1) ->
  forallb (resolvable env) (dict_keys events) = false ->
  exists good s v rest e,
    events = (good ++ (s, v) :: rest)%list /\
    forallb (resolvable env) (dict_keys good) = true /\
    pilots_endpoint env s = Raise e /\
    update_web_page env w = (Raise e, w1) /\
    same_files w w1.
Proof.
  intros Hdata Hrun Hsome.
  destruct (first_unresolvable env events Hsome)
    as (good & s & v & rest & e & Hsplit & Hgood & Hfail).
  exists good, s, v, rest, e.
  split; [exact Hsplit|]. split; [exact Hgood|]. split; [exact Hfail|].
  rewrite update_web_page_run, Hdata, Hrun.
  destruct (check_forbidden_coords_run env (body_drones response) w)
    as (Hfiles & _). cbn zeta in Hfiles. rewrite Hrun in Hfiles.
  simpl in Hfiles. split; [|exact Hfiles].
  rewrite get_pilot_data_run. unfold resolve_pilots. rewrite Hsplit.
  now rewrite (resolve_loop_first_failure env good s v rest e w1 Hgood Hfail).
Qed.

Lemma failed_lookup_aborts_cycle_far :
  exists good s v rest e,
    [("SN-near", (t0, 5000%float)); ("SN-far", (t0 + 1000, 8000%float))]
    = (good ++ (s, v) :: rest)%list /\
    forallb (resolvable env_one_lookup_fails) (dict_keys good) = true /\
    pilots_endpoint env_one_lookup_fails s = Raise e /\
    update_web_page env_one_lookup_fails (world_of (Registry registry_P1))
    = (Raise e, world_at 2 (Registry registry_P1)) /\
    same_files (world_of (Registry registry_P1)) (world_at 2 (Registry registry_P1)).
Proof.
  exact (failed_lookup_aborts_cycle env_one_lookup_fails
           (answer [drone_near; drone_far]) (world_of (Registry registry_P1))
           [("SN-near", (t0, 5000%float)); ("SN-far", (t0 + 1000, 8000%float))]
           (world_at 2 (Registry registry_P1)) eq_refl eq_refl eq_refl).
Defined.

(** ** The range of the stored distances *)

Lemma expire_and_write_ok env saved w :
  registry_ok saved ->
  file_ok (pilot_information_json w) ->
  file_ok (pilot_information_json
             (snd (match expire env saved w with
                   | (Ok d, w') => (Ok tt, with_pilot_information w' (Registry d))
                   | (Raise e, w') => (Raise e, w')
                   end))).
Proof.
  intros Hsaved Hold.
  pose proof (expire_keeps env _ saved w Hsaved) as Hkeep.
  pose proof (expire_files env saved w) as [Hjson _].
  destruct (expire env saved w) as [[d|e] w']; simpl in *;
    [exact Hkeep | rewrite Hjson; exact Hold].
Qed.

Lemma load_and_merge_ok pilot_data f saved :
  registry_ok pilot_data -> file_ok f ->
  load_and_merge pilot_data f = Ok saved -> registry_ok saved.
Proof.
  intros Hpd Hf. unfold load_and_merge.
  destruct f as [|e|saved0]; simpl.
  - discriminate.
  - destruct e; intros [= <-]; constructor.
  - intros [= <-]. now apply merge_pilot_data_ok.
Qed.

Lemma get_pilot_data_ok env drones_in_nfz w :
  Forall (fun kv => distance_ok (snd (snd kv)) = true) drones_in_nfz ->
  file_ok (pilot_information_json w) ->
  file_ok (pilot_information_json (snd (get_pilot_data env drones_in_nfz w))).
Proof.
  intros Hnew Hold. rewrite get_pilot_data_run. unfold resolve_pilots.
  destruct (forallb (resolvable env) (dict_keys drones_in_nfz)) eqn:Hkeys.
  - destruct (resolve_loop_ok env drones_in_nfz [] w Hkeys)
      as (pilot_data & -> & HP). cbn [fst].
    assert (Hpd : registry_ok pilot_data).
    { apply HP; [constructor|]. intros s t d p Hin _. simpl.
      rewrite Forall_forall in Hnew. exact (Hnew _ Hin). }
    pose proof (load_and_merge_ok pilot_data (pilot_information_json w)) as Hl.
    destruct (pilot_information_json w) as [|e|saved0] eqn:Hfile.
    + cbn [snd]. now rewrite Hfile.
    + destruct (load_and_merge pilot_data (Unloadable e)) as [saved|e'].
      * apply expire_and_write_ok; [now apply Hl | now rewrite Hfile].
      * cbn [snd]. now rewrite Hfile.
    + destruct (load_and_merge pilot_data (Registry saved0)) as [saved|e'].
      * apply expire_and_write_ok; [now apply Hl | now rewrite Hfile].
      * cbn [snd]. now rewrite Hfile.
  - destruct (resolve_loop_raise env drones_in_nfz [] w Hkeys) as (e & ->).
    simpl. exact Hold.
Qed.

(** C10.  If every stored [closestDistance] is between 0 and 100000 before a
    cycle, the same holds after it, whether the cycle completes or aborts. *)
Theorem cycle_keeps_distances_in_range env w :
  file_ok (pilot_information_json w) ->
  file_ok (pilot_information_json (snd (update_web_page env w))).
Proof.
  intros Hold. rewrite update_web_page_run.
  destruct (drones_endpoint env) as [response|e]; [|exact Hold].
  pose proof (recorded_distances_ok env (body_drones response) w) as Hnew.
  destruct (check_forbidden_coords_run env (body_drones response) w)
    as ([Hjson _] & _). cbn zeta in Hjson.
  destruct (check_forbidden_coords env (body_drones response) w)
    as [[events|e] w1]; simpl in *; [|now rewrite Hjson].
  specialize (Hnew events eq_refl).
  rewrite <- Hjson in Hold.
  pose proof (get_pilot_data_ok env events w1 Hnew Hold) as Hafter.
  destruct (get_pilot_data env events w1) as [[[]|e] w2]; simpl in *; auto.
  now rewrite convert_info_into_html_json.
Qed.

Lemma cycle_keeps_distances_in_range_P1 :
  file_ok (Registry registry_P1) /\
  file_ok (pilot_information_json
             (snd (update_web_page (env_same_pilot [drone_far])
                     (world_of (Registry registry_P1))))).
Proof.
  assert (H : file_ok (Registry registry_P1)).
  { constructor; [reflexivity | constructor]. }
  split; [exact H|].
  exact (cycle_keeps_distances_in_range (env_same_pilot [drone_far])
           (world_of (Registry registry_P1)) H).
Defined.

(** * Further properties of the code *)

(** ** The text of an element *)

Lemma split_on_no_sep sep s : occurs sep s = false -> split_on sep s = [s].
Proof.
  induction s as [|c rest IH]; simpl; auto.
  destruct (Ascii.eqb c sep); simpl; [discriminate|].
  intros H. now rewrite IH.
Qed.

Lemma split_on_at_sep sep a b :
  occurs sep a = false ->
  split_on sep (a ++ String sep b) = a :: split_on sep b.
Proof.
  induction a as [|c rest IH]; simpl.
  - now rewrite Ascii.eqb_refl.
  - destruct (Ascii.eqb c sep); simpl; [discriminate|].
    intros H. now rewrite IH.
Qed.

Lemma split_on_head sep s : exists first others, split_on sep s = first :: others.
Proof.
  induction s as [|c rest (f & o & IH)]; simpl; eauto.
  destruct (Ascii.eqb c sep); eauto. rewrite IH. eauto.
Qed.

Lemma split_on_app_head sep a b first others :
  occurs sep a = false ->
  split_on sep b = first :: others ->
  split_on sep (a ++ b) = (a ++ first) :: others.
Proof.
  intros Ha Hb. induction a as [|c rest IH]; simpl in *; auto.
  destruct (Ascii.eqb c sep); simpl in *; [discriminate|].
  now rewrite (IH Ha).
Qed.

Lemma split_on_two sep s :
  occurs sep s = true -> exists first second others,
    split_on sep s = first :: second :: others.
Proof.
  induction s as [|c rest IH]; simpl; [discriminate|].
  destruct (Ascii.eqb c sep); simpl.
  - intros _. destruct rest as [|c' rest']; simpl; eauto.
    destruct (Ascii.eqb c' sep); eauto.
    destruct (split_on sep rest'); eauto.
  - intros H. destruct (IH H) as (f & s2 & o & ->). eauto.
Qed.

(** The two splits give the part of the string between its first [>]
    and the next [<], when no [>] comes between them: on a string that
    reads [a], [>], [text], [<] and anything after, where [a] has no [>]
    and [text] has neither [<] nor [>], the expression gives [text]. *)
Theorem tag_text_element a text rest :
  occurs ">" a = false ->
  occurs ">" text = false ->
  occurs "<" text = false ->
  tag_text (a ++ String ">" (text ++ String "<" rest)) = Some text.
Proof.
  intros Ha Hgt Hlt. unfold tag_text.
  rewrite split_on_at_sep by exact Ha.
  destruct (split_on_head ">" rest) as (first & others & Hrest).
  assert (Hlt_rest : split_on ">" (String "<" rest) = String "<" first :: others).
  { cbn [split_on]. change (Ascii.eqb "<" ">") with false. cbv iota.
    now rewrite Hrest. }
  rewrite (split_on_app_head ">" text _ _ _ Hgt Hlt_rest).
  now rewrite split_on_at_sep.
Qed.

Lemma tag_text_element_positionX :
  tag_text ("<positionX" ++ String ">" ("150000.0" ++ String "<" "/positionX>"))
  = Some "150000.0".
Proof.
  exact (tag_text_element "<positionX" "150000.0" "/positionX>"
           eq_refl eq_refl eq_refl).
Defined.

(** The index [1] raises exactly on a string without [>]: in particular on
    ["None"], the [str] of a child that is missing. *)
Theorem tag_text_raises tag_str :
  tag_text tag_str = None <-> occurs ">" tag_str = false.
Proof.
  unfold tag_text. split.
  - intros H. destruct (occurs ">" tag_str) eqn:E; [|reflexivity].
    destruct (split_on_two _ _ E) as (f & s & o & Hs). rewrite Hs in H.
    destruct (split_on "<" s); discriminate.
  - intros H. now rewrite split_on_no_sep.
Qed.

(** ** Coordinates that are not numbers *)

Lemma x_inside_finite x : x_inside x = true -> is_finite x = true.
Proof.
  unfold x_inside, is_finite. rewrite !ltb_spec. intros H.
  apply andb_true_iff in H. destruct H as [Hlo Hhi].
  let v := eval vm_compute in (Prim2SF 150000%float) in
    change (Prim2SF 150000%float) with v in Hlo.
  let v := eval vm_compute in (Prim2SF 350000%float) in
    change (Prim2SF 350000%float) with v in Hhi.
  destruct (Prim2SF x) as [s|[|]| |s m e]; simpl in *; auto; discriminate.
Qed.

(** The square of the offset of a [y] that is NaN or infinite is NaN or
    [inf]: the interpreter settles it, the platform is not asked. *)
Lemma float_pow2_not_finite libm y square :
  is_finite y = false ->
  float_pow2 libm (nfz_center - y)%float = Ok square ->
  Prim2SF square = S754_nan \/ Prim2SF square = S754_infinity false.
Proof.
  unfold is_finite, float_pow2, is_nan, is_inf.
  rewrite !sub_spec.
  let v := eval vm_compute in (Prim2SF nfz_center) in
    change (Prim2SF nfz_center) with v.
  destruct (Prim2SF y) as [s|s| |s m e] eqn:Hy; try discriminate; intros _.
  - destruct s; cbn; intros [= <-]; right; rewrite abs_spec, sub_spec, Hy;
      reflexivity.
  - cbn. intros [= <-]. left. rewrite sub_spec, Hy. reflexivity.
Qed.

Lemma sqrt_of_sum_not_finite square_x square_y distance :
  Prim2SF square_y = S754_nan \/ Prim2SF square_y = S754_infinity false ->
  math_sqrt (square_x + square_y)%float = Ok distance ->
  PrimFloat.leb distance nfz_radius = false.
Proof.
  unfold math_sqrt. rewrite ltb_spec, add_spec.
  change (Prim2SF 0%float) with (S754_zero false).
  intros Hy.
  destruct (SFltb (SF64add (Prim2SF square_x) (Prim2SF square_y)) (S754_zero false))
    eqn:Hlt; [discriminate|].
  intros [= <-]. rewrite leb_spec, sqrt_spec, add_spec.
  let v := eval vm_compute in (Prim2SF nfz_radius) in
    change (Prim2SF nfz_radius) with v.
  destruct Hy as [-> | ->];
    destruct (Prim2SF square_x) as [sx|[|]| |sx mx ex]; reflexivity.
Qed.

Lemma nfz_distance_finite env d distance :
  nfz_distance env d = Ok (Some distance) ->
  is_finite (positionX d) = true /\ is_finite (positionY d) = true.
Proof.
  intros Hd. apply nfz_distance_some in Hd. destruct Hd as (Hx & Hdist & Hle).
  split; [now apply x_inside_finite|].
  destruct (is_finite (positionY d)) eqn:Hy; [reflexivity|].
  unfold nest_distance in Hdist.
  destruct (float_pow2 (libm_pow2 env) (nfz_center - positionX d))
    as [square_x|e]; [|discriminate].
  destruct (float_pow2 (libm_pow2 env) (nfz_center - positionY d))
    as [square_y|e] eqn:Hsq; [|discriminate].
  pose proof (float_pow2_not_finite _ _ _ Hy Hsq) as Hnf.
  rewrite (sqrt_of_sum_not_finite _ _ _ Hnf Hdist) in Hle. discriminate.
Qed.

(** A drone with a NaN or an infinite coordinate is never recorded: every
    recorded serial number belongs to a drone of the snapshot whose two
    coordinates are finite numbers. *)
Theorem recorded_coordinates_are_finite env data w events s :
  fst (check_forbidden_coords env data w) = Ok events ->
  dict_mem s events = true ->
  exists d, In d data /\ serialNumber d = s /\
            is_finite (positionX d) = true /\ is_finite (positionY d) = true.
Proof.
  intros Hrun Hmem. apply recorded_drones in Hrun.
  apply dict_mem_keys in Hmem. apply in_map_iff in Hmem.
  destruct Hmem as (kv & <- & Hkv). rewrite Forall_forall in Hrun.
  destruct (Hrun kv Hkv) as (d & Hd & Hs & Hdist).
  exists d. destruct (nfz_distance_finite env d _ Hdist). auto.
Qed.

Lemma recorded_coordinates_are_finite_near :
  exists d, In d [drone_near] /\ serialNumber d = "SN-near" /\
            is_finite (positionX d) = true /\ is_finite (positionY d) = true.
Proof.
  exact (recorded_coordinates_are_finite (env_same_pilot []) [drone_near]
           (world_of (Registry [])) [("SN-near", (t0, 5000%float))] "SN-near"
           eq_refl eq_refl).
Defined.

(** ** Which reading stamps which drone *)

Lemma recorded_iff env d :
  recorded env d = true <-> exists distance, nfz_distance env d = Ok (Some distance).
Proof.
  unfold recorded. destruct (nfz_distance env d) as [[distance|]|e]; split;
    eauto; try discriminate; intros (x & H); discriminate H.
Qed.

Lemma check_loop_exact env data :
  forall acc w events w',
    for_each (check_drone env) data acc w = (Ok events, w') ->
    ticks w' = (ticks w + List.length (filter (recorded env) data))%nat /\
    forall k,
      (forall d, In d data -> recorded env d = true -> serialNumber d <> k) ->
      dict_get k events = dict_get k acc.
Proof.
  induction data as [|d rest IH]; intros acc w events w'; simpl.
  - intros [= <- <-]. split; [lia | reflexivity].
  - unfold bind. rewrite check_drone_run.
    assert (Hr : recorded env d =
                 match nfz_distance env d with Ok (Some _) => true | _ => false end)
      by reflexivity.
    rewrite Hr.
    destruct (nfz_distance env d) as [[distance|]|e] eqn:Hd;
      [| |discriminate]; intros Hrun;
      destruct (IH _ _ _ _ Hrun) as (Ht & Hk); simpl in *.
    + split; [lia|]. intros k Hnone. rewrite Hk by auto.
      apply dict_get_set_ne. intros ->. now apply (Hnone d); auto.
    + split; [exact Ht|]. intros k Hnone. apply Hk. intros d' Hd' Hrec.
      apply Hnone; auto.
Qed.

(** When the call returns: for a drone that is recorded and is the
    last of its serial number to be, the stored distance is the one line 76
    computed for it and the stored time is the clock reading taken for it,
    reading number k of the call, k being the number of drones ahead of it
    that are recorded; the call reads the clock exactly once per recorded
    drone. *)
Theorem recorded_drone_time_and_distance env before d after w events w' distance :
  check_forbidden_coords env (before ++ d :: after) w = (Ok events, w') ->
  nfz_distance env d = Ok (Some distance) ->
  (forall d', In d' after -> recorded env d' = true ->
              serialNumber d' <> serialNumber d) ->
  dict_get (serialNumber d) events =
  Some (wall_clock env (ticks w + List.length (filter (recorded env) before)),
        distance) /\
  ticks w' =
  (ticks w + List.length (filter (recorded env) (before ++ d :: after)))%nat.
Proof.
  intros Hrun Hd Hlast. unfold check_forbidden_coords in Hrun.
  rewrite for_each_app in Hrun.
  destruct (for_each (check_drone env) before [] w) as [[ev1|e] w1] eqn:Hbefore;
    [|discriminate].
  destruct (check_loop_exact env before [] w ev1 w1 Hbefore) as (Ht1 & _).
  cbn [for_each] in Hrun. unfold bind in Hrun.
  rewrite check_drone_run, Hd in Hrun.
  destruct (check_loop_exact env after _ _ events w' Hrun) as (Ht & Hk).
  split.
  - rewrite Hk by exact Hlast. rewrite dict_get_set_eq, Ht1. reflexivity.
  - rewrite Ht. simpl. rewrite filter_app, length_app. simpl.
    unfold recorded at 3. rewrite Hd. simpl. lia.
Qed.

Lemma recorded_drone_time_and_distance_far :
  dict_get "SN-far" [("SN-near", (t0, 5000%float)); ("SN-far", (t0 + 1000, 8000%float))]
  = Some (t0 + 1000, 8000%float) /\
  ticks (world_at 2 (Registry [])) = 2%nat.
Proof.
  exact (recorded_drone_time_and_distance (env_same_pilot []) [drone_near]
           drone_far [] (world_of (Registry []))
           [("SN-near", (t0, 5000%float)); ("SN-far", (t0 + 1000, 8000%float))]
           (world_at 2 (Registry [])) 8000%float eq_refl eq_refl
           (fun d' (H : In d' []) => False_ind _ H)).
Defined.

(** The exception of line 76 for one drone ends the call with that
    exception: the drones after it are not looked at, the clock was read
    for the recorded drones ahead of it only, and no file is written. *)
Theorem distance_error_stops_the_call env before d after e w events w1 :
  check_forbidden_coords env before w = (Ok events, w1) ->
  nfz_distance env d = Raise e ->
  check_forbidden_coords env (before ++ d :: after) w = (Raise e, w1) /\
  same_files w w1 /\
  ticks w1 = (ticks w + List.length (filter (recorded env) before))%nat.
Proof.
  intros Hbefore Hd. unfold check_forbidden_coords in *.
  rewrite for_each_app, Hbefore. cbn [for_each]. unfold bind.
  rewrite check_drone_run, Hd. split; [reflexivity|].
  destruct (check_loop env before [] w) as (Hfiles & _).
  cbn zeta in Hfiles. rewrite Hbefore in Hfiles. split; [exact Hfiles|].
  apply (check_loop_exact env before [] w events w1 Hbefore).
Qed.

Lemma distance_error_stops_the_call_beyond :
  check_forbidden_coords (env_same_pilot [])
    ([drone_near] ++ drone_beyond :: [drone_far]) (world_of (Registry []))
  = (Raise OverflowError, world_at 1 (Registry [])) /\
  same_files (world_of (Registry [])) (world_at 1 (Registry [])) /\
  ticks (world_at 1 (Registry [])) = 1%nat.
Proof.
  exact (distance_error_stops_the_call (env_same_pilot []) [drone_near]
           drone_beyond [drone_far] OverflowError (world_of (Registry []))
           [("SN-near", (t0, 5000%float))] (world_at 1 (Registry []))
           eq_refl eq_refl).
Defined.

(** ** The loop on the parser's elements *)

Section ElementsFacts.
Variable float_of_string : string -> option float.
Variable env : Env.

Lemma check_element_reads_as acc el d w :
  Elements.reads_as float_of_string env el d ->
  Elements.check_element float_of_string env acc el w = check_drone env acc d w.
Proof.
  intros [Hcoords Hser]. unfold Elements.check_element, check_drone.
  unfold bind at 1. unfold lift at 1. rewrite Hcoords. cbn [fst snd].
  unfold recorded, nfz_distance in Hser.
  destruct (x_inside (positionX d)); [|reflexivity].
  unfold bind, lift.
  destruct (nest_distance env (positionX d) (positionY d)) as [distance|e];
    [|reflexivity].
  destruct (PrimFloat.leb distance nfz_radius); [|reflexivity].
  rewrite (Hser eq_refl). reflexivity.
Qed.

Lemma check_elements_reads_as els data :
  Forall2 (Elements.reads_as float_of_string env) els data ->
  forall acc w,
    for_each (Elements.check_element float_of_string env) els acc w
    = for_each (check_drone env) data acc w.
Proof.
  induction 1 as [|el d els data Hel _ IH]; intros acc w; simpl; auto.
  unfold bind. rewrite (check_element_reads_as acc el d w Hel).
  destruct (check_drone env acc d w) as [[acc'|e] w1]; auto.
Qed.

(** On a snapshot whose elements all read (the serial number being
    asked only of the drones that are recorded), the loop on the elements
    ends as [check_forbidden_coords] ends on the drones read: with the same
    dictionary or the same exception, and the same state. *)
Theorem check_forbidden_coords_on_elements els data w :
  Forall2 (Elements.reads_as float_of_string env) els data ->
  Elements.check_forbidden_coords float_of_string env els w
  = check_forbidden_coords env data w.
Proof. intros H. exact (check_elements_reads_as els data H [] w). Qed.

Lemma check_element_faulty acc el e w :
  Elements.faulty float_of_string env el e ->
  Elements.check_element float_of_string env acc el w = (Raise e, w).
Proof.
  unfold Elements.check_element, Elements.faulty, recorded, nfz_distance.
  unfold bind at 1. unfold lift at 1.
  intros [-> | (x & y & -> & H)]; [reflexivity|]. cbn [fst snd].
  cbn [positionX positionY] in H.
  destruct (x_inside x).
  - unfold bind, lift. destruct (nest_distance env x y) as [distance|e'].
    + destruct (PrimFloat.leb distance nfz_radius).
      * destruct H as [H | (_ & -> & ->)]; [discriminate | reflexivity].
      * destruct H as [H | (H & _)]; discriminate.
    + destruct H as [[= ->] | (H & _)]; [reflexivity | discriminate].
  - destruct H as [H | (H & _)]; discriminate.
Qed.

(** When the elements ahead of it read and the loop gets through them,
    an element that raises (in the splits or conversions of its
    coordinates, in the distance of line 76, or in its serial number once
    it has passed both tests) stops the call with its exception, whatever
    follows it; the files are untouched, the clock was read once for each
    drone recorded before it. *)
Theorem faulty_element_stops_the_call good data bad e rest w events w1 :
  Forall2 (Elements.reads_as float_of_string env) good data ->
  check_forbidden_coords env data w = (Ok events, w1) ->
  Elements.faulty float_of_string env bad e ->
  Elements.check_forbidden_coords float_of_string env (good ++ bad :: rest) w
  = (Raise e, w1) /\
  same_files w w1 /\
  ticks w1 = (ticks w + List.length (filter (recorded env) data))%nat.
Proof.
  intros Hgood Hrun Hbad. unfold Elements.check_forbidden_coords.
  rewrite for_each_app, (check_elements_reads_as good data Hgood [] w).
  unfold check_forbidden_coords in Hrun. rewrite Hrun.
  cbn [for_each]. unfold bind. rewrite (check_element_faulty _ _ _ _ Hbad).
  split; [reflexivity|].
  destruct (check_loop env data [] w) as (Hfiles & _).
  cbn zeta in Hfiles. rewrite Hrun in Hfiles. split; [exact Hfiles|].
  apply (check_loop_exact env data [] w events w1 Hrun).
Qed.

End ElementsFacts.

Lemma check_forbidden_coords_on_elements_sample :
  Elements.check_forbidden_coords float_of_sample (env_same_pilot [])
    [element_near; element_outside_unnamed] (world_of (Registry []))
  = check_forbidden_coords (env_same_pilot [])
      [drone_near; drone_at "" 400000%float 250000%float]
      (world_of (Registry [])).
Proof.
  apply check_forbidden_coords_on_elements.
  constructor; [split; [reflexivity | intros _; reflexivity]|].
  constructor; [split; [reflexivity | intros H; discriminate H]|].
  constructor.
Defined.

Lemma faulty_element_stops_the_call_sample :
  (Elements.check_forbidden_coords float_of_sample (env_same_pilot [])
     ([element_near] ++ element_without_x :: [element_near])
     (world_of (Registry registry_P1))
   = (Raise IndexError, world_at 1 (Registry registry_P1)) /\
   same_files (world_of (Registry registry_P1)) (world_at 1 (Registry registry_P1)) /\
   ticks (world_at 1 (Registry registry_P1)) = 1%nat) /\
  (Elements.check_forbidden_coords float_of_sample (env_same_pilot [])
     ([element_near] ++ element_beyond :: [element_near])
     (world_of (Registry registry_P1))
   = (Raise OverflowError, world_at 1 (Registry registry_P1)) /\
   same_files (world_of (Registry registry_P1)) (world_at 1 (Registry registry_P1)) /\
   ticks (world_at 1 (Registry registry_P1)) = 1%nat).
Proof.
  split.
  - apply (faulty_element_stops_the_call float_of_sample (env_same_pilot [])
             [element_near] [drone_near] element_without_x IndexError
             [element_near] (world_of (Registry registry_P1))
             [("SN-near", (t0, 5000%float))] (world_at 1 (Registry registry_P1))).
    + constructor; [split; [reflexivity | intros _; reflexivity] | constructor].
    + reflexivity.
    + left. reflexivity.
  - apply (faulty_element_stops_the_call float_of_sample (env_same_pilot [])
             [element_near] [drone_near] element_beyond OverflowError
             [element_near] (world_of (Registry registry_P1))
             [("SN-near", (t0, 5000%float))] (world_at 1 (Registry registry_P1))).
    + constructor; [split; [reflexivity | intros _; reflexivity] | constructor].
    + reflexivity.
    + right. exists 250000%float, 0x1.4e718d7d7625ap+664%float.
      split; [reflexivity|]. left. reflexivity.
Defined.

(** ** The page *)

Lemma insert_before_last_two_app {A} (x a b : A) pre :
  insert_before_last_two x (pre ++ [a; b])%list
  = ((pre ++ [x]) ++ [a; b])%list.
Proof.
  rewrite <- app_assoc. simpl.
  unfold insert_before_last_two. rewrite length_app. simpl.
  replace (List.length pre + 2 - 2)%nat with (List.length pre + 0)%nat by lia.
  rewrite firstn_app_2, skipn_app. simpl.
  rewrite app_nil_r, skipn_all2 by lia.
  replace (List.length pre + 0 - List.length pre)%nat with 0%nat by lia.
  reflexivity.
Qed.

Section HtmlFacts.
Variable format_2f : float -> string.

Lemma insert_pilot_app pre a b entry :
  insert_pilot format_2f (pre ++ [a; b])%list entry =
  ((pre ++ item_lines format_2f (pilot_block (snd entry))) ++ [a; b])%list.
Proof.
  unfold insert_pilot. simpl.
  rewrite !insert_before_last_two_app.
  rewrite <- !app_assoc. reflexivity.
Qed.

Lemma fold_insert_pilot_app d :
  forall pre a b,
    fold_left (insert_pilot format_2f) d (pre ++ [a; b])%list =
    ((pre ++ flat_map (fun kv => item_lines format_2f (pilot_block (snd kv))) d)
       ++ [a; b])%list.
Proof.
  induction d as [|entry rest IH]; intros pre a b; simpl.
  - now rewrite app_nil_r.
  - rewrite insert_pilot_app, IH. now rewrite <- !app_assoc.
Qed.

Lemma html_dis_not_h1_close v : String.eqb (html_dis format_2f v) h1_close = false.
Proof. reflexivity. Qed.

Lemma last_line_of_blocks (pre : list string) (d : dict PilotInfo) (a b : string) :
  d <> [] ->
  let lines := ((pre ++ flat_map
                   (fun kv => item_lines format_2f (pilot_block (snd kv))) d)
                  ++ [a; b])%list in
  exists v, nth (List.length lines - 3) lines EmptyString = html_dis format_2f v.
Proof.
  intros Hne lines.
  destruct (exists_last Hne) as (front & [k r] & ->).
  exists (closestDistance r / 1000)%float.
  set (F := fun kv : string * PilotInfo =>
              item_lines format_2f (pilot_block (snd kv))) in *.
  set (front_lines :=
         (pre ++ flat_map F front
              ++ [html_name (firstName (pilot r)) (lastName (pilot r));
                  html_phone (phoneNumber (pilot r));
                  html_email (email (pilot r))])%list).
  assert (HL : lines =
               (front_lines
                  ++ html_dis format_2f (closestDistance r / 1000)%float
                  :: [a; b])%list).
  { subst lines front_lines. rewrite flat_map_app. simpl.
    rewrite <- !app_assoc. reflexivity. }
  rewrite HL, length_app. simpl List.length.
  replace (List.length front_lines + 3 - 3)%nat
    with (List.length front_lines) by lia.
  apply nth_middle.
Qed.

Lemma html_lines_eq d :
  html_lines format_2f d =
  ((firstn 11 base_html ++ flat_map (item_lines format_2f) (page_of d))
     ++ skipn 11 base_html)%list.
Proof.
  unfold html_lines.
  change (skipn 11 base_html) with ["</body>" ++ nl; "</html>"].
  remember (firstn 11 base_html) as head eqn:Hhead.
  assert (Hbase : base_html
                  = (head ++ [String.append "</body>" nl; "</html>"])%list)
    by (subst head; reflexivity).
  rewrite Hbase, fold_insert_pilot_app.
  destruct d as [|entry rest].
  - subst head. reflexivity.
  - destruct (last_line_of_blocks head (entry :: rest)
                ("</body>" ++ nl) "</html>" ltac:(discriminate)) as (v & Hv).
    cbv zeta in Hv. rewrite Hv, html_dis_not_h1_close.
    f_equal. f_equal. unfold page_of. cbn [map].
    change (pilot_block (snd entry) :: map (fun kv => pilot_block (snd kv)) rest)
      with (map (fun kv : string * PilotInfo => pilot_block (snd kv)) (entry :: rest)).
    rewrite !flat_map_concat_map, map_map. reflexivity.
Qed.

(** When the registry file holds [d], [convert_info_into_html] returns, and
    the lines written to [information.html] are the eleven lines of the head
    of [base_html], then the lines of the page kept in the state, item by
    item, then [</body>] and [</html>]; the page is the notice alone exactly
    when the registry is empty, and otherwise one block per pilot in the
    order of the registry. *)
Theorem html_lines_layout w d :
  pilot_information_json w = Registry d ->
  exists page,
    convert_info_into_html w =
    (Ok tt, {| ticks := ticks w;
               pilot_information_json := Registry d;
               information_html := Some page |}) /\
    html_lines format_2f d =
    ((firstn 11 base_html ++ flat_map (item_lines format_2f) page)
       ++ skipn 11 base_html)%list /\
    (d = [] -> page = [NoDronesNotice]) /\
    (d <> [] -> page = map (fun kv => pilot_block (snd kv)) d).
Proof.
  intros Hfile. exists (page_of d). split; [|split; [apply html_lines_eq|]].
  - unfold convert_info_into_html, bind, open_pilot_information, lift.
    destruct w as [n f page0]. simpl in *. subst f.
    unfold page_of. destruct d; reflexivity.
  - split; [intros ->; reflexivity|].
    destruct d; [congruence | reflexivity].
Qed.

End HtmlFacts.

Lemma html_lines_layout_P1 :
  exists page,
    convert_info_into_html (world_of (Registry registry_P1)) =
    (Ok tt, {| ticks := 0;
               pilot_information_json := Registry registry_P1;
               information_html := Some page |}) /\
    html_lines format_of_sample registry_P1 =
    ((firstn 11 base_html ++ flat_map (item_lines format_of_sample) page)
       ++ skipn 11 base_html)%list /\
    (registry_P1 = [] -> page = [NoDronesNotice]) /\
    (registry_P1 <> [] -> page = map (fun kv => pilot_block (snd kv)) registry_P1).
Proof.
  exact (html_lines_layout format_of_sample (world_of (Registry registry_P1))
           registry_P1 eq_refl).
Defined.

(** ** The lookups, in general *)

Section ResolveFacts.
Variable env : Env.

Lemma resolve_loop_exact l :
  forall acc w,
    forallb (resolvable env) (dict_keys l) = true ->
    exists pilot_data,
      for_each (resolve_drone env) l acc w = (Ok pilot_data, w) /\
      forall k,
        (forall s t d p, In (s, (t, d)) l -> pilots_endpoint env s = Ok p ->
                         pilotId p <> k) ->
        dict_get k pilot_data = dict_get k acc.
Proof.
  induction l as [|[s [t d]] rest IH]; intros acc w Hall; simpl in *.
  - exists acc. auto.
  - apply andb_true_iff in Hall. destruct Hall as [Hs Hall].
    unfold bind, lift, resolvable in *.
    destruct (pilots_endpoint env s) as [p|e] eqn:Hp; [|discriminate]. simpl.
    destruct (IH (dict_set (pilotId p) (info p t d) acc) w Hall)
      as (pilot_data & Hrun & Hk).
    exists pilot_data. split; [exact Hrun|].
    intros k Hnone. rewrite Hk by eauto.
    apply dict_get_set_ne. intros ->. apply (Hnone s t d p); auto.
Qed.

(** [resolve_pilots] leaves the state alone and returns a dictionary
    exactly when every lookup answers. *)
Theorem resolve_pilots_outcome drones_in_nfz w :
  snd (resolve_pilots env drones_in_nfz w) = w /\
  ((exists pilot_data, fst (resolve_pilots env drones_in_nfz w) = Ok pilot_data)
   <-> forallb (resolvable env) (dict_keys drones_in_nfz) = true).
Proof.
  unfold resolve_pilots. split; [apply resolve_loop_world|].
  destruct (forallb (resolvable env) (dict_keys drones_in_nfz)) eqn:E.
  - destruct (resolve_loop_ok env drones_in_nfz [] w E) as (pd & -> & _).
    split; [reflexivity | intros _; exists pd; reflexivity].
  - destruct (resolve_loop_raise env drones_in_nfz [] w E) as (e & ->).
    split; [intros (pd & H); discriminate H | discriminate].
Qed.

(** The first lookup that fails ends [resolve_pilots] with its exception;
    the drones after it are not looked up, so what they would answer does
    not matter. *)
Theorem resolve_pilots_first_failure good s v rest e w :
  forallb (resolvable env) (dict_keys good) = true ->
  pilots_endpoint env s = Raise e ->
  resolve_pilots env (good ++ (s, v) :: rest)%list w = (Raise e, w).
Proof.
  intros Hgood Hs. unfold resolve_pilots. rewrite for_each_app.
  destruct (resolve_loop_ok env good [] w Hgood) as (pd & -> & _).
  destruct v as [t d]. cbn [for_each]. unfold bind at 1.
  unfold resolve_drone, bind, lift. rewrite Hs. reflexivity.
Qed.

Lemma resolve_loop_last before s t d after p w :
  forallb (resolvable env) (dict_keys (before ++ (s, (t, d)) :: after)%list) = true ->
  pilots_endpoint env s = Ok p ->
  (forall s' t' d' p', In (s', (t', d')) after ->
                       pilots_endpoint env s' = Ok p' -> pilotId p' <> pilotId p) ->
  exists pilot_data,
    for_each (resolve_drone env) (before ++ (s, (t, d)) :: after)%list [] w
    = (Ok pilot_data, w) /\
    dict_get (pilotId p) pilot_data = Some (info p t d).
Proof.
  intros Hall Hp Hlast. rewrite for_each_app.
  unfold dict_keys in Hall. rewrite map_app, forallb_app in Hall.
  apply andb_true_iff in Hall. destruct Hall as [Hbefore Hrest].
  simpl in Hrest. apply andb_true_iff in Hrest. destruct Hrest as [_ Hafter].
  destruct (resolve_loop_ok env before [] w Hbefore) as (pd1 & -> & _).
  cbn [for_each]. unfold bind at 1. unfold resolve_drone at 1.
  unfold bind, lift. rewrite Hp. unfold ret.
  destruct (resolve_loop_exact after (dict_set (pilotId p) (info p t d) pd1)
              w Hafter) as (pd & Hrun & Hk).
  unfold info in Hrun. rewrite Hrun.
  exists pd. split; [reflexivity|].
  rewrite Hk by exact Hlast. apply dict_get_set_eq.
Qed.

(** When every lookup answers, [pilot_data] holds for a pilot the time and
    distance of the last of the drones that resolve to that pilot. *)
Theorem resolve_pilots_keeps_last before s t d after p w :
  forallb (resolvable env) (dict_keys (before ++ (s, (t, d)) :: after)%list) = true ->
  pilots_endpoint env s = Ok p ->
  (forall s' t' d' p', In (s', (t', d')) after ->
                       pilots_endpoint env s' = Ok p' -> pilotId p' <> pilotId p) ->
  exists pilot_data,
    resolve_pilots env (before ++ (s, (t, d)) :: after)%list w = (Ok pilot_data, w) /\
    dict_get (pilotId p) pilot_data = Some (info p t d).
Proof. intros Hall Hp Hlast. now apply resolve_loop_last. Qed.

End ResolveFacts.

Lemma resolve_pilots_first_failure_far :
  resolve_pilots env_one_lookup_fails
    ([("SN-near", (t0, 5000%float))] ++ ("SN-far", (t0, 8000%float)) :: [])%list
    (world_of (Registry [])) = (Raise ConnectionError, world_of (Registry [])).
Proof.
  exact (resolve_pilots_first_failure env_one_lookup_fails
           [("SN-near", (t0, 5000%float))] "SN-far" (t0, 8000%float) []
           ConnectionError (world_of (Registry [])) eq_refl eq_refl).
Defined.

Lemma resolve_pilots_keeps_last_far :
  exists pilot_data,
    resolve_pilots (env_same_pilot [])
      ([("SN-near", (t0, 5000%float))] ++ ("SN-far", (t0 + 1000, 8000%float)) :: [])%list
      (world_of (Registry [])) = (Ok pilot_data, world_of (Registry [])) /\
    dict_get "P1" pilot_data = Some (info pilot_P1 (t0 + 1000) 8000%float).
Proof.
  exact (resolve_pilots_keeps_last (env_same_pilot [])
           [("SN-near", (t0, 5000%float))] "SN-far" (t0 + 1000) 8000%float []
           pilot_P1 (world_of (Registry [])) eq_refl eq_refl
           (fun s' t' d' p' (H : In (s', (t', d')) []) => False_ind _ H)).
Defined.

(** ** The merge, in general *)

Lemma merge_pilot_data_get pilot_data :
  forall saved k new,
    NoDup (dict_keys pilot_data) ->
    dict_get k pilot_data = Some new ->
    dict_get k (merge_pilot_data pilot_data saved)
    = Some (merged (dict_get k saved) new).
Proof.
  induction pilot_data as [|[k' new'] rest IH]; intros saved k new Hnd Hget;
    [discriminate|].
  change (merge_pilot_data ((k', new') :: rest) saved)
    with (merge_pilot_data rest (merge_entry saved (k', new'))).
  inversion Hnd as [|? ? Hnotin Hrest]; subst.
  cbn [dict_get] in Hget. destruct (String.eqb k k') eqn:E.
  - apply String.eqb_eq in E. subst k'. injection Hget as ->.
    rewrite merge_pilot_data_other by assumption. apply merge_entry_same.
  - rewrite (IH _ k new Hrest Hget). rewrite merge_entry_other; [reflexivity|].
    apply String.eqb_neq in E. exact E.
Qed.

Lemma merge_entry_keys saved entry :
  exists added,
    dict_keys (merge_entry saved entry) = (dict_keys saved ++ added)%list /\
    forall k, In k added <-> k = fst entry /\ ~ In k (dict_keys saved).
Proof.
  destruct entry as [pilot_id new]. cbn [fst].
  assert (Hset : forall v : PilotInfo,
            (dict_get pilot_id saved = None ->
             dict_keys (dict_set pilot_id v saved)
             = (dict_keys saved ++ [pilot_id])%list) /\
            (dict_get pilot_id saved <> None ->
             dict_keys (dict_set pilot_id v saved) = dict_keys saved)).
  { intros v. induction saved as [|[k0 v0] rest IH]; simpl.
    - split; [reflexivity | congruence].
    - destruct (String.eqb pilot_id k0) eqn:E.
      + apply String.eqb_eq in E. subst. simpl.
        split; [discriminate | intros _; reflexivity].
      + simpl. destruct IH as [IH1 IH2].
        split; intros H; [rewrite IH1 | rewrite IH2]; auto. }
  unfold merge_entry.
  destruct (dict_get pilot_id saved) as [old|] eqn:Hold.
  - exists []. rewrite (proj2 (Hset _)) by discriminate. rewrite app_nil_r.
    split; [reflexivity|]. intros k. split; [intros []|].
    intros [-> Hnot]. exfalso. apply Hnot. apply dict_mem_keys.
    unfold dict_mem. now rewrite Hold.
  - exists [pilot_id]. rewrite (proj1 (Hset _)) by reflexivity.
    split; [reflexivity|]. intros k. simpl. split.
    + intros [<-|[]]. split; [reflexivity|]. intros Hin.
      apply dict_mem_keys in Hin. unfold dict_mem in Hin.
      rewrite Hold in Hin. discriminate.
    + intros [-> _]. now left.
Qed.

(** The merge keeps every stored pilot at its place in the file, appends
    the pilots that were not stored, and leaves the record of every pilot
    outside [pilot_data] as it was. *)
Theorem merge_pilot_data_frame pilot_data saved :
  (exists added,
     dict_keys (merge_pilot_data pilot_data saved)
     = (dict_keys saved ++ added)%list /\
     forall k, In k added <->
               In k (dict_keys pilot_data) /\ ~ In k (dict_keys saved)) /\
  (forall k, ~ In k (dict_keys pilot_data) ->
             dict_get k (merge_pilot_data pilot_data saved) = dict_get k saved).
Proof.
  split; [|intros k Hk; now apply merge_pilot_data_other].
  revert saved. induction pilot_data as [|entry rest IH]; intros saved.
  - exists []. simpl. rewrite app_nil_r. split; [reflexivity|].
    intros k. simpl. tauto.
  - change (merge_pilot_data (entry :: rest) saved)
      with (merge_pilot_data rest (merge_entry saved entry)).
    destruct (merge_entry_keys saved entry) as (a1 & Hk1 & Ha1).
    destruct (IH (merge_entry saved entry)) as (a2 & Hk2 & Ha2).
    exists (a1 ++ a2)%list. rewrite Hk2, Hk1, <- app_assoc.
    split; [reflexivity|]. intros k. rewrite in_app_iff, Ha1, Ha2, Hk1.
    rewrite in_app_iff, Ha1. simpl.
    destruct (in_dec string_dec k (dict_keys saved)) as [Hin|Hout];
      destruct (string_dec k (fst entry)) as [->|Hne]; intuition congruence.
Qed.

(** The merge keeps the keys of the registry unique. *)
Lemma merge_pilot_data_keys_unique pilot_data :
  forall saved,
    NoDup (dict_keys saved) -> NoDup (dict_keys (merge_pilot_data pilot_data saved)).
Proof.
  induction pilot_data as [|[k new] rest IH]; intros saved H; [exact H|].
  change (merge_pilot_data ((k, new) :: rest) saved)
    with (merge_pilot_data rest (merge_entry saved (k, new))).
  apply IH. simpl. destruct (dict_get k saved); now apply dict_set_keys_unique.
Qed.

Lemma leb_refl_number a : is_number a = true -> PrimFloat.leb a a = true.
Proof.
  intros H. apply is_number_spec in H. rewrite leb_spec. unfold SFleb.
  now rewrite SFcompare_refl.
Qed.

(** For a stored pilot, a merge of numbers never raises the closest
    distance, and never touches the pilot's contact fields. *)
Theorem merge_never_raises_distance pilot_data saved k old :
  NoDup (dict_keys pilot_data) ->
  Forall (fun kv => is_number (closestDistance (snd kv)) = true) pilot_data ->
  dict_get k saved = Some old ->
  is_number (closestDistance old) = true ->
  exists r,
    dict_get k (merge_pilot_data pilot_data saved) = Some r /\
    pilot r = pilot old /\
    PrimFloat.leb (closestDistance r) (closestDistance old) = true.
Proof.
  intros Hnd Hnum Hold Hnum_old.
  destruct (dict_get k pilot_data) as [new|] eqn:Hnew.
  - rewrite (merge_pilot_data_get pilot_data saved k new Hnd Hnew), Hold.
    eexists. split; [reflexivity|]. split; [reflexivity|]. simpl.
    apply float_min_lower_bound; [assumption|].
    apply dict_get_In in Hnew. rewrite Forall_forall in Hnum.
    exact (Hnum _ Hnew).
  - rewrite merge_pilot_data_other.
    + exists old. split; [assumption|]. split; [reflexivity|].
      now apply leb_refl_number.
    + intros Hin. apply dict_mem_keys in Hin. unfold dict_mem in Hin.
      rewrite Hnew in Hin. discriminate.
Qed.

Lemma merge_never_raises_distance_P1 :
  exists r,
    dict_get "P1"
      (merge_pilot_data [("P1", info pilot_P1 (t0 + second) 8000%float)]
         registry_P1) = Some r /\
    pilot r = pilot_P1 /\
    PrimFloat.leb (closestDistance r) 5000%float = true.
Proof.
  apply (merge_never_raises_distance
           [("P1", info pilot_P1 (t0 + second) 8000%float)] registry_P1 "P1"
           (info pilot_P1 t0 5000%float)).
  - constructor; [intros [] | constructor].
  - constructor; [reflexivity | constructor].
  - reflexivity.
  - reflexivity.
Defined.

Lemma merge_pilot_data_frame_P1 :
  (exists added,
     dict_keys (merge_pilot_data [("P2", info pilot_P2 t0 8000%float)] registry_P1)
     = (dict_keys registry_P1 ++ added)%list /\
     forall k, In k added <->
               In k (dict_keys [("P2", info pilot_P2 t0 8000%float)]) /\
               ~ In k (dict_keys registry_P1)) /\
  (forall k, ~ In k (dict_keys [("P2", info pilot_P2 t0 8000%float)]) ->
             dict_get k (merge_pilot_data [("P2", info pilot_P2 t0 8000%float)]
                           registry_P1)
             = dict_get k registry_P1).
Proof.
  exact (merge_pilot_data_frame [("P2", info pilot_P2 t0 8000%float)] registry_P1).
Defined.

(** ** The expiry, in general *)

(** Whatever the clock, the expiry only deletes: what it returns is the
    registry without some of its entries, in the same order. *)
Theorem expire_only_deletes env saved w d :
  fst (expire env saved w) = Ok d ->
  exists keep, d = filter keep saved.
Proof.
  unfold expire, bind.
  destruct (for_each (check_expired env) saved [] w) as [[keys|e] w'];
    simpl; [|discriminate].
  intros [= <-]. rewrite fold_del_filter. eauto.
Qed.

Lemma expire_only_deletes_day_old :
  exists keep, registry_day_old = filter keep registry_day_old.
Proof.
  exact (expire_only_deletes (env_frozen t0) registry_day_old
           (world_of (Registry registry_day_old)) registry_day_old eq_refl).
Defined.

Lemma collect_expired_zero_microsecond env saved :
  Exists (fun kv => timeOfViolation (snd kv) mod microseconds_per_second = 0)
    saved ->
  forall acc w,
    fst (for_each (check_expired env) saved acc w) = Raise ValueError.
Proof.
  induction saved as [|[k r] rest IH]; intros Hex acc w.
  - inversion Hex.
  - cbn [for_each]. unfold bind at 1. unfold check_expired, bind, now, lift.
    cbn [snd] in *. unfold strptime at 1.
    destruct (timeOfViolation r mod microseconds_per_second =? 0) eqn:E;
      [reflexivity|].
    assert (Hrest : Exists (fun kv => timeOfViolation (snd kv)
                                      mod microseconds_per_second = 0) rest).
    { inversion Hex as [? ? H|? ? H]; subst; [|exact H].
      simpl in H. apply Z.eqb_neq in E. contradiction. }
    destruct (timedelta_seconds _ >? 600); apply IH; exact Hrest.
Qed.

(** A stored timestamp with a zero microsecond field stops the expiry with
    [ValueError], whatever the clock and the other entries. *)
Lemma expire_zero_microsecond env saved w :
  Exists (fun kv => timeOfViolation (snd kv) mod microseconds_per_second = 0)
    saved ->
  fst (expire env saved w) = Raise ValueError.
Proof.
  intros Hex. unfold expire, bind.
  pose proof (collect_expired_zero_microsecond env saved Hex [] w) as H.
  destruct (for_each (check_expired env) saved [] w) as [[keys|e] w'];
    simpl in *; [discriminate | congruence].
Qed.


(** Once the registry file holds a timestamp with a zero microsecond
    field, a cycle in which the detection returns with no drone recorded
    aborts with [ValueError] and leaves both files as they are: the entry is
    never removed. *)
Theorem zero_microsecond_entry_blocks_the_cycle env response w w1 saved :
  drones_endpoint env = Ok response ->
  check_forbidden_coords env (body_drones response) w = (Ok [], w1) ->
  pilot_information_json w = Registry saved ->
  Exists (fun kv => timeOfViolation (snd kv) mod microseconds_per_second = 0)
    saved ->
  exists w', update_web_page env w = (Raise ValueError, w') /\ same_files w w'.
Proof.
  intros Hdata Hrun Hfile Hzero. rewrite update_web_page_run, Hdata, Hrun.
  destruct (check_forbidden_coords_run env (body_drones response) w)
    as (Hfiles1 & _). cbn zeta in Hfiles1. rewrite Hrun in Hfiles1.
  simpl in Hfiles1. destruct Hfiles1 as [Hjson Hhtml].
  rewrite get_pilot_data_run. unfold resolve_pilots. cbn [for_each ret fst].
  rewrite Hjson, Hfile. unfold load_and_merge, json_load.
  change (merge_pilot_data [] saved) with saved.
  pose proof (expire_zero_microsecond env saved w1 Hzero) as Hraise.
  pose proof (expire_files env saved w1) as Hfiles.
  destruct (expire env saved w1) as [[d|e] w2]; simpl in *; [discriminate|].
  injection Hraise as ->. exists w2. split; [reflexivity|].
  eapply same_files_trans; [|exact Hfiles]. split; assumption.
Qed.

Lemma zero_microsecond_entry_blocks_the_cycle_P2 :
  exists w',
    update_web_page (env_frozen t0) (world_of (Registry registry_whole_second))
    = (Raise ValueError, w') /\
    same_files (world_of (Registry registry_whole_second)) w'.
Proof.
  apply (zero_microsecond_entry_blocks_the_cycle (env_frozen t0) (answer [])
           (world_of (Registry registry_whole_second))
           (world_of (Registry registry_whole_second)) registry_whole_second).
  - reflexivity.
  - reflexivity.
  - reflexivity.
  - left. reflexivity.
Defined.

(** A clock reading earlier than the stored time, by up to 85799 seconds,
    makes [difference.seconds] exceed 600. *)
Lemma expired_when_clock_is_behind now_ r :
  - (85799 * microseconds_per_second) <= now_ - timeOfViolation r < 0 ->
  expired_at now_ r = true.
Proof.
  unfold expired_at, timedelta_seconds, seconds_per_day, microseconds_per_second.
  intros H. set (d := now_ - timeOfViolation r) in *.
  pose proof (Z.div_mod d 1000000 ltac:(lia)) as Hdiv.
  pose proof (Z.mod_pos_bound d 1000000 ltac:(lia)) as Hmod.
  assert (Hq : -85799 <= d / 1000000 < 0) by lia.
  replace ((d / 1000000) mod 86400) with (d / 1000000 + 86400).
  - apply Z.gtb_lt. lia.
  - apply Z.mod_unique with (q := -1); lia.
Qed.

(** Under a clock standing at [now_], an entry stamped later than [now_],
    by up to 85799 seconds, is removed at once: as after the clock has been
    set back. *)
Theorem entry_from_the_future_is_removed env now_ saved w k r :
  (forall n, wall_clock env n = now_) ->
  NoDup (dict_keys saved) ->
  Forall (fun kv => strptime (timeOfViolation (snd kv))
                    = Ok (timeOfViolation (snd kv))) saved ->
  In (k, r) saved ->
  - (85799 * microseconds_per_second) <= now_ - timeOfViolation r < 0 ->
  exists d, fst (expire env saved w) = Ok d /\ dict_get k d = None.
Proof.
  intros Hfrozen Hnd Hparse Hin Hbehind.
  rewrite (expire_frozen_clock env now_ Hfrozen saved w Hnd Hparse).
  eexists. split; [reflexivity|].
  apply dict_get_not_key. intros Hk. apply in_map_iff in Hk.
  destruct Hk as ([k' r'] & Hfst & Hkv). simpl in Hfst. subst k'.
  apply filter_In in Hkv. destruct Hkv as [Hin' Hkeep]. simpl in Hkeep.
  assert (r' = r).
  { pose proof (unique_key_entry saved (k, r') (k, r) Hnd Hin' Hin eq_refl) as E.
    congruence. }
  subst r'. rewrite (expired_when_clock_is_behind now_ r Hbehind) in Hkeep.
  discriminate.
Qed.

Lemma entry_from_the_future_is_removed_P1 :
  exists d,
    fst (expire (env_frozen t_early) registry_P1 (world_of (Registry registry_P1)))
    = Ok d /\ dict_get "P1" d = None.
Proof.
  apply (entry_from_the_future_is_removed (env_frozen t_early) t_early
           registry_P1 (world_of (Registry registry_P1)) "P1"
           (info pilot_P1 t0 5000%float) (fun _ => eq_refl)).
  - repeat constructor; simpl; intuition.
  - repeat constructor.
  - left. reflexivity.
  - simpl. split; discriminate || reflexivity.
Defined.

(** ** The cycle as a whole *)

Lemma get_pilot_data_outcome env drones_in_nfz w :
  match get_pilot_data env drones_in_nfz w with
  | (Ok _, w') =>
      (exists d, pilot_information_json w' = Registry d) /\
      information_html w' = information_html w
  | (Raise _, w') => same_files w w'
  end.
Proof.
  rewrite get_pilot_data_run.
  destruct (fst (resolve_pilots env drones_in_nfz w)) as [pilot_data|e];
    [|apply same_files_refl].
  assert (Hexp : forall saved,
            match expire env saved w with
            | (Ok d, w') =>
                (exists d', pilot_information_json
                              (with_pilot_information w' (Registry d))
                            = Registry d') /\
                information_html (with_pilot_information w' (Registry d))
                = information_html w
            | (Raise _, w') => same_files w w'
            end).
  { intros saved. pose proof (expire_files env saved w) as [Hj Hh].
    destruct (expire env saved w) as [[d|e] w']; simpl in *.
    - split; [eauto | exact Hh].
    - split; assumption. }
  destruct (pilot_information_json w) as [|e|saved];
    [apply same_files_refl | |];
    match goal with |- context [load_and_merge pilot_data ?f] =>
      destruct (load_and_merge pilot_data f) as [merged_registry|e'] end;
    try apply same_files_refl;
    (specialize (Hexp merged_registry);
     destruct (expire env merged_registry w) as [[d|e''] w']; exact Hexp).
Qed.

Lemma convert_info_into_html_page w d :
  pilot_information_json w = Registry d ->
  convert_info_into_html w =
  (Ok tt, {| ticks := ticks w;
             pilot_information_json := Registry d;
             information_html := Some (page_of d) |}).
Proof.
  intros Hfile.
  unfold convert_info_into_html, bind, open_pilot_information, lift.
  destruct w as [n f page0]. simpl in *. subst f.
  unfold page_of. destruct d; reflexivity.
Qed.

Lemma update_registry_run env w :
  update_registry env w =
  match drones_endpoint env with
  | Raise e => (Raise e, w)
  | Ok response =>
      match check_forbidden_coords env (body_drones response) w with
      | (Raise e, w1) => (Raise e, w1)
      | (Ok drones_in_nfz, w1) => get_pilot_data env drones_in_nfz w1
      end
  end.
Proof.
  unfold update_registry, bind, get_drone_data, lift.
  destruct (drones_endpoint env); reflexivity.
Qed.

(** [update_web_page] is [update_registry] followed by
    [convert_info_into_html]. *)
Lemma update_web_page_split env w :
  update_web_page env w = (update_registry env ;;; convert_info_into_html)%py w.
Proof.
  rewrite update_web_page_run. unfold bind at 1. rewrite update_registry_run.
  destruct (drones_endpoint env) as [response|e]; [|reflexivity].
  destruct (check_forbidden_coords env (body_drones response) w)
    as [[events|e] w1]; [|reflexivity].
  destruct (get_pilot_data env events w1) as [[[]|e] w2]; reflexivity.
Qed.

(** A cycle that raises before [convert_info_into_html] is called (in
    the fetch, the detection, the lookups, the reading of the registry or
    the expiry) ends with that exception and has written nothing: both
    files are as before. *)
Theorem aborted_cycle_writes_nothing env w e :
  fst (update_registry env w) = Raise e ->
  update_web_page env w = (Raise e, snd (update_registry env w)) /\
  same_files w (snd (update_registry env w)).
Proof.
  rewrite update_web_page_run, update_registry_run.
  destruct (drones_endpoint env) as [response|e0].
  2:{ simpl. intros [= ->]. split; [reflexivity | apply same_files_refl]. }
  destruct (check_forbidden_coords_run env (body_drones response) w)
    as (Hfiles & _). cbn zeta in Hfiles.
  destruct (check_forbidden_coords env (body_drones response) w)
    as [[events|e1] w1]; simpl in Hfiles.
  2:{ simpl. intros [= ->]. split; [reflexivity | exact Hfiles]. }
  pose proof (get_pilot_data_outcome env events w1) as Hout.
  destruct (get_pilot_data env events w1) as [[[]|e1] w2]; simpl;
    [discriminate|].
  intros [= ->]. split; [reflexivity|].
  eapply same_files_trans; eassumption.
Qed.

(** A cycle that completes leaves a registry on disk and the page of that
    very registry. *)
Theorem completed_cycle_page_shows_registry env w :
  fst (update_web_page env w) = Ok tt ->
  exists d,
    pilot_information_json (snd (update_web_page env w)) = Registry d /\
    information_html (snd (update_web_page env w)) = Some (page_of d).
Proof.
  rewrite update_web_page_run.
  destruct (drones_endpoint env) as [response|e0]; [|discriminate].
  destruct (check_forbidden_coords env (body_drones response) w)
    as [[events|e1] w1]; [|discriminate].
  pose proof (get_pilot_data_outcome env events w1) as Hout.
  destruct (get_pilot_data env events w1) as [[[]|e1] w2]; [|discriminate].
  destruct Hout as [(d & Hd) _]. intros _. exists d.
  rewrite (convert_info_into_html_page w2 d Hd). split; reflexivity.
Qed.

Lemma filter_all {A} (f : A -> bool) l :
  Forall (fun x => f x = true) l -> filter f l = l.
Proof.
  induction 1 as [|x l Hx _ IH]; simpl; auto. now rewrite Hx, IH.
Qed.

(** A quiet cycle: under a clock standing at [now_], when the
    detection returns with no drone recorded and every stored pilot was
    seen less than 601 seconds ago, [get_pilot_data] completes and writes
    back the registry it found, and the cycle goes on to build the page
    from it. *)
Theorem quiet_cycle_keeps_registry env now_ response w w1 saved :
  (forall n, wall_clock env n = now_) ->
  drones_endpoint env = Ok response ->
  check_forbidden_coords env (body_drones response) w = (Ok [], w1) ->
  pilot_information_json w = Registry saved ->
  NoDup (dict_keys saved) ->
  Forall (fun kv => strptime (timeOfViolation (snd kv))
                    = Ok (timeOfViolation (snd kv))) saved ->
  Forall (fun kv => 0 <= now_ - timeOfViolation (snd kv)
                    < 601 * microseconds_per_second) saved ->
  exists w2,
    get_pilot_data env [] w1 = (Ok tt, w2) /\
    pilot_information_json w2 = Registry saved /\
    information_html w2 = information_html w /\
    update_web_page env w = convert_info_into_html w2.
Proof.
  intros Hfrozen Hdata Hrun Hfile Hnd Hparse Hfresh.
  rewrite update_web_page_run, Hdata, Hrun.
  destruct (check_forbidden_coords_run env (body_drones response) w)
    as (Hfiles1 & _). cbn zeta in Hfiles1. rewrite Hrun in Hfiles1.
  simpl in Hfiles1. destruct Hfiles1 as [Hjson Hhtml].
  rewrite get_pilot_data_run. unfold resolve_pilots. cbn [for_each ret fst].
  rewrite Hjson, Hfile. unfold load_and_merge, json_load.
  change (merge_pilot_data [] saved) with saved.
  assert (Hday : Forall (fun kv => 0 <= now_ - timeOfViolation (snd kv)
                           < seconds_per_day * microseconds_per_second) saved).
  { eapply Forall_impl; [|exact Hfresh]. cbv beta.
    unfold seconds_per_day, microseconds_per_second. intros kv H. lia. }
  pose proof (expire_within_a_day env now_ Hfrozen saved w1 Hnd Hparse Hday) as Hexp.
  rewrite filter_all in Hexp.
  2:{ eapply Forall_impl; [|exact Hfresh]. cbv beta. intros kv H.
      apply Z.ltb_lt. lia. }
  pose proof (expire_files env saved w1) as [_ Hhtml2].
  destruct (expire env saved w1) as [[d|e] w2]; simpl in Hexp; [|discriminate].
  injection Hexp as ->. simpl in Hhtml2.
  exists (with_pilot_information w2 (Registry saved)).
  split; [reflexivity|]. split; [reflexivity|]. split; [|reflexivity].
  simpl. congruence.
Qed.

Lemma aborted_cycle_writes_nothing_far :
  update_web_page env_one_lookup_fails (world_of (Registry registry_P1))
  = (Raise ConnectionError,
     snd (update_registry env_one_lookup_fails (world_of (Registry registry_P1)))) /\
  same_files (world_of (Registry registry_P1))
    (snd (update_registry env_one_lookup_fails (world_of (Registry registry_P1)))).
Proof.
  exact (aborted_cycle_writes_nothing env_one_lookup_fails
           (world_of (Registry registry_P1)) ConnectionError eq_refl).
Defined.

Lemma completed_cycle_page_shows_registry_near :
  exists d,
    pilot_information_json
      (snd (update_web_page (env_same_pilot [drone_near]) (world_of (Registry [])))) 
    = Registry d /\
    information_html
      (snd (update_web_page (env_same_pilot [drone_near]) (world_of (Registry []))))
    = Some (page_of d).
Proof.
  exact (completed_cycle_page_shows_registry (env_same_pilot [drone_near])
           (world_of (Registry [])) eq_refl).
Defined.

Lemma quiet_cycle_keeps_registry_P1 :
  exists w2,
    get_pilot_data (env_frozen t_late) [] (world_of (Registry registry_P1))
    = (Ok tt, w2) /\
    pilot_information_json w2 = Registry registry_P1 /\
    information_html w2 = information_html (world_of (Registry registry_P1)) /\
    update_web_page (env_frozen t_late) (world_of (Registry registry_P1))
    = convert_info_into_html w2.
Proof.
  apply (quiet_cycle_keeps_registry (env_frozen t_late) t_late (answer [])
           (world_of (Registry registry_P1)) (world_of (Registry registry_P1))
           registry_P1 (fun _ => eq_refl)).
  - reflexivity.
  - reflexivity.
  - reflexivity.
  - repeat constructor; simpl; intuition.
  - repeat constructor.
  - repeat constructor; simpl; discriminate.
Defined.

(** ** From a drone in the zone to its pilot in the registry *)

Lemma check_loop_keys_unique env data :
  forall acc w,
    NoDup (dict_keys acc) ->
    match fst (for_each (check_drone env) data acc w) with
    | Ok events => NoDup (dict_keys events)
    | Raise _ => True
    end.
Proof.
  induction data as [|d rest IH]; intros acc w Hacc; simpl; auto.
  unfold bind. rewrite check_drone_run.
  destruct (nfz_distance env d) as [[distance|]|e];
    [apply IH; now apply dict_set_keys_unique | apply IH; exact Hacc | exact I].
Qed.

Lemma dict_get_unique_entry {V} (d : dict V) k v :
  NoDup (dict_keys d) -> In (k, v) d -> dict_get k d = Some v.
Proof.
  induction d as [|[k' v'] rest IH]; simpl; intros Hnd Hin; [contradiction|].
  inversion Hnd as [|? ? Hnotin Hrest]; subst.
  destruct Hin as [[= -> ->]|Hin].
  - now rewrite String.eqb_refl.
  - destruct (String.eqb k k') eqn:E; [|auto].
    apply String.eqb_eq in E. subst k'. exfalso. apply Hnotin.
    change k with (fst (k, v)). now apply in_map.
Qed.

Lemma dict_get_filter {V} (keep : string * V -> bool) (d : dict V) k v :
  dict_get k d = Some v -> keep (k, v) = true ->
  dict_get k (filter keep d) = Some v.
Proof.
  induction d as [|[k' v'] rest IH]; simpl; [discriminate|].
  destruct (String.eqb k k') eqn:E.
  - apply String.eqb_eq in E. subst k'. intros [= ->] Hkeep.
    rewrite Hkeep. simpl. now rewrite String.eqb_refl.
  - intros Hget Hkeep. destruct (keep (k', v')); simpl; [rewrite E|]; auto.
Qed.

Lemma merge_entry_times (P : datetime -> Prop) saved entry :
  Forall (fun kv => P (timeOfViolation (snd kv))) saved ->
  P (timeOfViolation (snd entry)) ->
  Forall (fun kv => P (timeOfViolation (snd kv))) (merge_entry saved entry).
Proof.
  destruct entry as [pilot_id new]. simpl. intros Hsaved Hnew.
  destruct (dict_get pilot_id saved) as [old|];
    apply dict_set_Forall; auto. simpl.
  destruct (float_gt _ _); exact Hnew.
Qed.

Lemma merge_pilot_data_times (P : datetime -> Prop) pilot_data :
  forall saved,
    Forall (fun kv => P (timeOfViolation (snd kv))) saved ->
    Forall (fun kv => P (timeOfViolation (snd kv))) pilot_data ->
    Forall (fun kv => P (timeOfViolation (snd kv)))
      (merge_pilot_data pilot_data saved).
Proof.
  induction pilot_data as [|entry rest IH]; intros saved Hs Hp; [exact Hs|].
  change (merge_pilot_data (entry :: rest) saved)
    with (merge_pilot_data rest (merge_entry saved entry)).
  inversion Hp; subst. apply IH; auto. now apply merge_entry_times.
Qed.

Section Enter.
Variables (env : Env) (now_ : datetime).
Hypothesis frozen : forall n, wall_clock env n = now_.

(** Under a standing clock every event of the call carries its reading,
    the serial numbers are unique, and a drone that alone carries its serial
    number among the recorded drones is stored with its own distance. *)
Lemma events_under_frozen_clock data w events w1 d distance :
  check_forbidden_coords env data w = (Ok events, w1) ->
  In d data -> nfz_distance env d = Ok (Some distance) ->
  (forall d', In d' data -> recorded env d' = true ->
              serialNumber d' = serialNumber d -> d' = d) ->
  same_files w w1 /\
  NoDup (dict_keys events) /\
  Forall (fun kv => fst (snd kv) = now_ /\
                    exists d', In d' data /\ recorded env d' = true /\
                               serialNumber d' = fst kv) events /\
  In (serialNumber d, (now_, distance)) events.
Proof.
  intros Hrun Hd Hin Honly.
  destruct (check_forbidden_coords_run env data w) as (Hfiles & _ & Hv & HP).
  cbn zeta in *. rewrite Hrun in *. simpl in Hfiles, Hv.
  pose proof (check_loop_keys_unique env data [] w (NoDup_nil _)) as Hnd.
  unfold check_forbidden_coords in Hrun. rewrite Hrun in Hnd. simpl in Hnd.
  split; [exact Hfiles|]. split; [exact Hnd|].
  assert (Hall : Forall (fun kv =>
            fst (snd kv) = now_ /\
            exists d', In d' data /\ serialNumber d' = fst kv /\
                       nfz_distance env d' = Ok (Some (snd (snd kv)))) events).
  { apply (HP events eq_refl). intros d' n dist' Hd' Hin' _. simpl.
    split; [apply frozen|]. eauto. }
  split.
  - eapply Forall_impl; [|exact Hall].
    intros kv (Ht & d' & H1 & H2 & H3). split; [exact Ht|].
    exists d'. split; [exact H1|]. split; [|exact H2].
    apply recorded_iff. eauto.
  - assert (Hkey : In (serialNumber d) (dict_keys events)).
    { rewrite <- forget_time_keys. symmetry in Hv. unfold violations in Hv.
      apply (violations_keys env data [] _ _ Hv). right. eauto. }
    apply in_map_iff in Hkey. destruct Hkey as ([s [t dist]] & Hs & Hkv).
    simpl in Hs. subst s. rewrite Forall_forall in Hall.
    destruct (Hall _ Hkv) as (Ht & d' & H1 & H2 & H3). simpl in *.
    assert (Hrec : recorded env d' = true) by (apply recorded_iff; eauto).
    rewrite (Honly d' H1 Hrec H2) in H3. rewrite Hin in H3.
    injection H3 as <-. subst t. exact Hkv.
Qed.

(** Under a clock standing at a time [now_] that [strptime] reads
    back, in a cycle whose detection returns: a drone that is recorded,
    alone with its serial number and alone of its pilot among the recorded
    drones, brings its pilot into the registry that [get_pilot_data]
    writes, with the distance line 76 computed for it, merged with what was
    stored for that pilot, provided every lookup answers and the stored
    timestamps read back; the cycle goes on to build the page. *)
Theorem violator_enters_registry response w events w1 d distance p saved :
  now_ mod microseconds_per_second <> 0 ->
  drones_endpoint env = Ok response ->
  check_forbidden_coords env (body_drones response) w = (Ok events, w1) ->
  In d (body_drones response) ->
  nfz_distance env d = Ok (Some distance) ->
  (forall d', In d' (body_drones response) -> recorded env d' = true ->
              serialNumber d' = serialNumber d -> d' = d) ->
  (forall d', In d' (body_drones response) -> recorded env d' = true ->
              resolvable env (serialNumber d') = true) ->
  pilots_endpoint env (serialNumber d) = Ok p ->
  (forall d' p', In d' (body_drones response) -> recorded env d' = true ->
                 pilots_endpoint env (serialNumber d') = Ok p' ->
                 pilotId p' = pilotId p -> serialNumber d' = serialNumber d) ->
  pilot_information_json w = Registry saved ->
  NoDup (dict_keys saved) ->
  Forall (fun kv => strptime (timeOfViolation (snd kv))
                    = Ok (timeOfViolation (snd kv))) saved ->
  exists registry w2,
    get_pilot_data env events w1 = (Ok tt, w2) /\
    pilot_information_json w2 = Registry registry /\
    dict_get (pilotId p) registry =
    Some (merged (dict_get (pilotId p) saved) (info p now_ distance)) /\
    update_web_page env w = convert_info_into_html w2.
Proof.
  intros Hmicro Hdata Hdet Hd Hin Honly Hres Hp Hpilot Hfile Hnd Hparse.
  assert (Hnow : strptime now_ = Ok now_).
  { unfold strptime. apply Z.eqb_neq in Hmicro. now rewrite Hmicro. }
  rewrite update_web_page_run, Hdata, Hdet.
  destruct (events_under_frozen_clock (body_drones response) w events w1 d
              distance Hdet Hd Hin Honly)
    as ([Hjson Hhtml] & Hkeys & Hev & Hmine).
  rewrite Forall_forall in Hev.
  (* the lookups *)
  assert (Hall : forallb (resolvable env) (dict_keys events) = true).
  { apply forallb_forall. intros s Hs. apply in_map_iff in Hs.
    destruct Hs as (kv & <- & Hkv).
    destruct (Hev kv Hkv) as (_ & d' & H1 & H2 & <-). auto. }
  destruct (in_split _ _ Hmine) as (before & after & Hsplit).
  assert (Hafter : forall s' t' d' p',
            In (s', (t', d')) after -> pilots_endpoint env s' = Ok p' ->
            pilotId p' <> pilotId p).
  { intros s' t' dist' p' Hin' Hp' Heq.
    assert (Hkv : In (s', (t', dist')) events).
    { rewrite Hsplit. apply in_or_app. right. now right. }
    destruct (Hev _ Hkv) as (_ & d' & H1 & H2 & H3). simpl in H3. subst s'.
    pose proof (Hpilot d' p' H1 H2 Hp' Heq) as Hsame.
    rewrite Hsplit in Hkeys. unfold dict_keys in Hkeys.
    rewrite map_app in Hkeys. apply NoDup_remove_2 in Hkeys. apply Hkeys.
    apply in_or_app. right. rewrite <- Hsame.
    exact (in_map fst after (serialNumber d', (t', dist')) Hin'). }
  rewrite Hsplit in Hall.
  destruct (resolve_loop_last env before (serialNumber d) now_ _ after p
              w1 Hall Hp Hafter) as (pilot_data & Hrun & Hget).
  rewrite <- Hsplit in Hrun, Hall.
  destruct (resolve_loop_ok env events [] w1 Hall) as (pd' & Hrun' & HP).
  rewrite Hrun in Hrun'.
  injection Hrun' as <-.
  assert (Hpd_nd : NoDup (dict_keys pilot_data)).
  { apply (resolve_loop_keys_unique env events [] w1); [constructor|].
    now rewrite Hrun. }
  assert (Hpd_time : Forall (fun kv => strptime (timeOfViolation (snd kv))
                                       = Ok (timeOfViolation (snd kv)))
                       pilot_data).
  { apply HP; [constructor|]. intros s t dist p' Hkv _. simpl.
    destruct (Hev _ Hkv) as (Ht & _). simpl in Ht. now subst t. }
  (* the merge and the expiry *)
  rewrite get_pilot_data_run. unfold resolve_pilots. rewrite Hrun.
  cbn [fst]. rewrite Hjson, Hfile. unfold load_and_merge, json_load.
  set (merged_registry := merge_pilot_data pilot_data saved).
  assert (Hm_nd : NoDup (dict_keys merged_registry))
    by now apply merge_pilot_data_keys_unique.
  assert (Hm_time : Forall (fun kv => strptime (timeOfViolation (snd kv))
                                      = Ok (timeOfViolation (snd kv)))
                      merged_registry)
    by now apply (merge_pilot_data_times
                    (fun t => strptime t = Ok t) pilot_data saved).
  pose proof (expire_frozen_clock env now_ frozen merged_registry w1
                Hm_nd Hm_time) as Hexp.
  destruct (expire env merged_registry w1) as [[registry|e] w2];
    simpl in Hexp; [|discriminate].
  injection Hexp as ->.
  set (registry := filter (fun kv => negb (expired_at now_ (snd kv)))
                      merged_registry).
  exists registry, (with_pilot_information w2 (Registry registry)).
  split; [reflexivity|]. split; [reflexivity|]. split; [|reflexivity].
  subst registry. apply dict_get_filter.
  - subst merged_registry. now apply merge_pilot_data_get.
  - simpl. unfold expired_at.
    replace (timeOfViolation (merged (dict_get (pilotId p) saved)
               (info p now_ distance)))
      with now_ by (destruct (dict_get (pilotId p) saved); reflexivity).
    rewrite Z.sub_diag. reflexivity.
Qed.

End Enter.

Lemma violator_enters_registry_far :
  exists registry w2,
    get_pilot_data (env_frozen_with t_late [drone_far])
      [("SN-far", (t_late, 8000%float))] (world_at 1 (Registry registry_P1))
    = (Ok tt, w2) /\
    pilot_information_json w2 = Registry registry /\
    dict_get "P1" registry = Some (info pilot_P1 t_late 5000%float) /\
    update_web_page (env_frozen_with t_late [drone_far])
      (world_of (Registry registry_P1))
    = convert_info_into_html w2.
Proof.
  apply (violator_enters_registry (env_frozen_with t_late [drone_far]) t_late
           (fun _ => eq_refl) (answer [drone_far])
           (world_of (Registry registry_P1))
           [("SN-far", (t_late, 8000%float))] (world_at 1 (Registry registry_P1))
           drone_far 8000%float pilot_P1 registry_P1).
  - vm_compute. discriminate.
  - reflexivity.
  - reflexivity.
  - left. reflexivity.
  - reflexivity.
  - intros d' [<-|[]] _ _. reflexivity.
  - intros d' [<-|[]] _. reflexivity.
  - reflexivity.
  - intros d' p' [<-|[]] _ _ _. reflexivity.
  - reflexivity.
  - repeat constructor; simpl; intuition.
  - repeat constructor.
Defined.

(** ** The expiry under a standing clock, with its state *)

Lemma collect_expired_state env saved :
  Forall (fun kv => strptime (timeOfViolation (snd kv))
                    = Ok (timeOfViolation (snd kv))) saved ->
  forall acc w,
  exists keys w',
    for_each (check_expired env) saved acc w = (Ok keys, w') /\
    same_files w w' /\
    ticks w' = (ticks w + List.length saved)%nat.
Proof.
  induction 1 as [|[k r] rest Hparse _ IH]; intros acc w.
  - exists acc, w. split; [reflexivity|].
    split; [apply same_files_refl | simpl; lia].
  - cbn [for_each]. unfold bind at 1. unfold check_expired, bind, now, lift.
    simpl in Hparse. rewrite Hparse.
    match goal with |- context [if ?c then _ else _] => destruct c end;
      unfold ret; cbv beta iota;
      match goal with |- context [for_each _ rest ?a ?w1] =>
        destruct (IH a w1) as (keys & w' & Hrun & [Hj Hh] & Ht) end;
      exists keys, w'; simpl in *;
      (split; [exact Hrun|]; split; [split; assumption | lia]).
Qed.

(** Under a clock standing at [now_], on a registry whose timestamps read
    back, the expiry returns the entries with [difference.seconds <= 600],
    in their order, reads the clock once per stored entry and touches no
    file. *)
Theorem expiry_under_standing_clock env now_ saved w :
  (forall n, wall_clock env n = now_) ->
  NoDup (dict_keys saved) ->
  Forall (fun kv => strptime (timeOfViolation (snd kv))
                    = Ok (timeOfViolation (snd kv))) saved ->
  exists w',
    expire env saved w =
    (Ok (filter (fun kv => negb (timedelta_seconds
                                   (now_ - timeOfViolation (snd kv)) >? 600))
           saved), w') /\
    same_files w w' /\
    ticks w' = (ticks w + List.length saved)%nat.
Proof.
  intros Hfrozen Hnd Hparse.
  pose proof (expire_frozen_clock env now_ Hfrozen saved w Hnd Hparse) as Hres.
  unfold expire, bind in *.
  destruct (collect_expired_state env saved Hparse [] w)
    as (keys & w' & Hrun & Hfiles & Ht).
  rewrite Hrun in *. simpl in Hres. exists w'. unfold ret.
  injection Hres as Hres. rewrite Hres. auto.
Qed.

Lemma expiry_under_standing_clock_two :
  exists w',
    expire (env_frozen t_late) registry_two (world_of (Registry registry_two)) =
    (Ok [("P1", info pilot_P1 t0 5000%float)], w') /\
    same_files (world_of (Registry registry_two)) w' /\
    ticks w' = 2%nat.
Proof.
  apply (expiry_under_standing_clock (env_frozen t_late) t_late registry_two
           (world_of (Registry registry_two)) (fun _ => eq_refl)).
  - repeat constructor; simpl; intuition discriminate.
  - repeat constructor.
Defined.

(** Under a clock standing at [now_], when every stored pilot was last seen
    within the day before [now_], a stored pilot is still in the registry
    after the expiry exactly when seen less than 601 seconds ago. *)
Theorem stored_pilot_survives_iff_recent env now_ saved w :
  (forall n, wall_clock env n = now_) ->
  NoDup (dict_keys saved) ->
  Forall (fun kv => strptime (timeOfViolation (snd kv))
                    = Ok (timeOfViolation (snd kv))) saved ->
  Forall (fun kv => 0 <= now_ - timeOfViolation (snd kv)
                    < seconds_per_day * microseconds_per_second) saved ->
  exists d,
    fst (expire env saved w) = Ok d /\
    forall k r, In (k, r) saved ->
                (dict_get k d = Some r <->
                 now_ - timeOfViolation r < 601 * microseconds_per_second).
Proof.
  intros Hfrozen Hnd Hparse Hday.
  rewrite (expire_within_a_day env now_ Hfrozen saved w Hnd Hparse Hday).
  eexists. split; [reflexivity|]. intros k r Hin. split.
  - intros Hget. apply dict_get_In in Hget. apply filter_In in Hget.
    destruct Hget as [_ Hkeep]. simpl in Hkeep. now apply Z.ltb_lt.
  - intros Hrecent. apply dict_get_filter.
    + now apply dict_get_unique_entry.
    + simpl. now apply Z.ltb_lt.
Qed.

Lemma stored_pilot_survives_iff_recent_two :
  exists d,
    fst (expire (env_frozen t_late) registry_two (world_of (Registry registry_two)))
    = Ok d /\
    forall k r, In (k, r) registry_two ->
                (dict_get k d = Some r <->
                 t_late - timeOfViolation r < 601 * microseconds_per_second).
Proof.
  apply (stored_pilot_survives_iff_recent (env_frozen t_late) t_late
           registry_two (world_of (Registry registry_two)) (fun _ => eq_refl)).
  - repeat constructor; simpl; intuition discriminate.
  - repeat constructor.
  - repeat constructor; simpl; discriminate.
Defined.

